(** * Velora anomaly-detection pipeline: a shallow embedding

    Source: [src/cli/Anomaly-Detection-main/anomaly_pipeline.py], and the
    expressions of [src/cli/Anomaly-Detection-main/app/dashboard.py] that
    read the frame the pipeline returns.

    Conventions of the embedding.
    - A binary64 value is read as the rational it denotes ([Q]); NaN is a
      separate cell constructor where pandas can hold one.  Rounding is
      modelled only where the program's control flow depends on it (the
      split index [int(len(df) * 0.7)]).
    - A Python exception is a value of [exn]; a function that can raise
      returns a [result].
    - numpy, pandas and scikit-learn are not part of the repository.  Their
      deterministic, documented operations ([np.interp], [ndarray.var],
      slicing, [DataFrame.fillna], ...) are written out; the operations
      whose result is fixed only up to a contract (the default unstable
      sort, timestamp parsing, the scaler and the three detectors) are the
      fields of the interface [Library]. *)

From Stdlib Require Import ZArith QArith Qround Lia Lqa.
From stdpp Require Import base tactics option list sorting strings gmap.

Local Open Scope Q_scope.

(** ** Python exceptions and results *)

Inductive exn : Type :=
  | KeyError
  | IndexError
  | ValueError
  | InvalidWeightsError
  | InsufficientDataError.

Inductive result (A : Type) : Type :=
  | Ok (a : A)
  | Raise (e : exn).

Arguments Ok {A} a.
Arguments Raise {A} e.

(** Sequencing: the first exception raised aborts what follows. *)
#[global] Instance result_bind : MBind result := λ A B k r,
  match r with
  | Ok a => k a
  | Raise e => Raise e
  end.

(** A library call that fails is a [ValueError] (what scikit-learn's input
    validation and [pd.to_datetime] raise). *)
Definition lift {A} (o : option A) : result A :=
  match o with
  | Some a => Ok a
  | None => Raise ValueError
  end.

(** [d[k]] on a dict. *)
Definition getitem {V} (d : gmap string V) (k : string) : result V :=
  match d !! k with
  | Some v => Ok v
  | None => Raise KeyError
  end.

(** A list comprehension whose element expression can raise. *)
Fixpoint map_result {A B} (f : A → result B) (l : list A) : result (list B) :=
  match l with
  | [] => Ok []
  | a :: l' => b ← f a; bs ← map_result f l'; Ok (b :: bs)
  end.

(** ** numpy: one-dimensional float arrays *)

Module np.

Abbreviation ndarray := (list Q).

Definition ltb (x y : Q) : bool := negb (Qle_bool y x).

(** [w * a] for a Python float [w] and an array [a]. *)
Definition scalar_mul (w : Q) (a : ndarray) : ndarray := map (Qmult w) a.

Definition neg (a : ndarray) : ndarray := map Qopp a.

(** [a + b] on shapes [(n,)] and [(m,)]: element-wise when [n = m], one
    side broadcast when its length is 1, [ValueError] otherwise. *)
Definition add (a b : ndarray) : result ndarray :=
  if (length a =? length b)%nat then Ok (zip_with Qplus a b)
  else match a, b with
       | [x], _ => Ok (map (Qplus x) b)
       | _, [y] => Ok (map (λ x, x + y) a)
       | _, _ => Raise ValueError
       end.

(** [a.min()] and [a.max()]: a left-to-right reduction; the empty array
    has no identity and raises [ValueError]. *)
Definition minimum (x y : Q) : Q := if Qle_bool x y then x else y.
Definition maximum (x y : Q) : Q := if Qle_bool x y then y else x.

Definition min (a : ndarray) : result Q :=
  match a with
  | [] => Raise ValueError
  | x :: a' => Ok (foldl minimum x a')
  end.

Definition max (a : ndarray) : result Q :=
  match a with
  | [] => Raise ValueError
  | x :: a' => Ok (foldl maximum x a')
  end.

(** [binary_search_with_guess] of numpy's [compiled_base.c], in the
    linear form it takes for at most four sample points:
    [len] when [key > arr[len-1]], [-1] when [key < arr[0]], otherwise
    [i - 1] for the first [i >= 1] with [i = len] or [key < arr[i]]. *)
Fixpoint linear_search (key : Q) (arr : list Q) : nat :=
  match arr with
  | [] => 0
  | a :: arr' => if Qle_bool a key then S (linear_search key arr') else 0
  end.

Definition binary_search_with_guess (key : Q) (arr : list Q) : Z :=
  if ltb (List.last arr 0) key then Z.of_nat (length arr)
  else if ltb key (hd 0 arr) then (-1)%Z
  else Z.of_nat (linear_search key (tl arr)).

(** One point of [np.interp(x, xp, fp)] with [left] and [right] unset
    and at least two sample points. *)
Definition interp_point (xp fp : list Q) (x : Q) : Q :=
  let lenxp := Z.of_nat (length xp) in
  let j := binary_search_with_guess x xp in
  if (j =? -1)%Z then hd 0 fp
  else if (j =? lenxp)%Z then List.last fp 0
  else if (j =? lenxp - 1)%Z then nth (Z.to_nat j) fp 0
  else if Qeq_bool (nth (Z.to_nat j) xp 0) x then nth (Z.to_nat j) fp 0
  else
    let slope :=
      (nth (S (Z.to_nat j)) fp 0 - nth (Z.to_nat j) fp 0)
      / (nth (S (Z.to_nat j)) xp 0 - nth (Z.to_nat j) xp 0) in
    slope * (x - nth (Z.to_nat j) xp 0) + nth (Z.to_nat j) fp 0.

Definition interp (x : ndarray) (xp fp : list Q) : result ndarray :=
  match xp with
  | [] => Raise ValueError
  | [x0] =>
      if (length fp =? 1)%nat then
        Ok (map (λ v, if ltb v x0 then hd 0 fp
                      else if ltb x0 v then List.last fp 0
                      else hd 0 fp) x)
      else Raise ValueError
  | _ =>
      if (length fp =? length xp)%nat then Ok (map (interp_point xp fp) x)
      else Raise ValueError
  end.

(** The slice [a[:k]]; a negative [k] counts from the end. *)
Definition slice_to {A} (k : Z) (l : list A) : list A :=
  if (k <? 0)%Z then take (length l - Z.to_nat (- k)) l
  else take (Z.to_nat k) l.

(** Two-dimensional arrays, row-major.  The number of columns is read
    off the first row, so the embedding covers arrays with at least one
    row. *)
Abbreviation matrix := (list (list Q)).

Definition ncols (X : matrix) : nat := length (hd [] X).

Definition rectangular (X : matrix) : Prop :=
  Forall (λ r, length r = ncols X) X.

Definition column (X : matrix) (j : nat) : ndarray :=
  map (λ r, nth j r 0) X.

Definition sum (a : ndarray) : Q := foldl Qplus 0 a.

Definition mean (a : ndarray) : Q :=
  sum a / inject_Z (Z.of_nat (length a)).

(** [a.var()] with the default [ddof = 0]. *)
Definition var (a : ndarray) : Q :=
  let m := mean a in
  mean (map (λ x, (x - m) * (x - m)) a).

(** [X.var(axis=0)]. *)
Definition var_axis0 (X : matrix) : ndarray :=
  map (λ j, var (column X j)) (seq 0 (ncols X)).

(** [np.mean((X - Y) ** 2, axis=1)] on arrays of one shape. *)
Definition mean_sq_diff_axis1 (X Y : matrix) : result ndarray :=
  if bool_decide (map length X = map length Y) then
    Ok (zip_with (λ r s, mean (zip_with (λ x y, (x - y) * (x - y)) r s)) X Y)
  else Raise ValueError.

(** [a[mask]] for a boolean mask. *)
Fixpoint compress {A} (mask : list bool) (a : list A) : list A :=
  match mask, a with
  | b :: mask', x :: a' =>
      if b then x :: compress mask' a' else compress mask' a'
  | _, _ => []
  end.

(** [a[idx]] for an index array produced by [argsort]. *)
Definition take_idx {A} (d : A) (a : list A) (idx : list nat) : list A :=
  map (λ i, nth i a d) idx.

(** What the documentation of [np.argsort] promises for every [kind]:
    the result lists each position once and reads the array in
    ascending order.  The order of equal elements is promised only for
    [kind='stable'], which this program does not request. *)
Definition is_argsort {A} (le : relation A) (d : A) (a : list A)
    (idx : list nat) : Prop :=
  idx ≡ₚ seq 0 (length a) ∧ Sorted le (take_idx d a idx).

(** The insertion sort that numpy's default introsort runs on short
    arrays: element [i] is placed behind every element not greater than
    it. *)
Fixpoint insert_idx {A} (leb : A → A → bool) (d : A) (a : list A)
    (i : nat) (sorted : list nat) : list nat :=
  match sorted with
  | [] => [i]
  | j :: rest =>
      if leb (nth j a d) (nth i a d) then j :: insert_idx leb d a i rest
      else i :: sorted
  end.

Definition insertion_argsort {A} (leb : A → A → bool) (d : A)
    (a : list A) : list nat :=
  foldl (λ sorted i, insert_idx leb d a i sorted) [] (seq 0 (length a)).

End np.

(** ** [ensemble_score] *)

Definition ensemble_score (scores : gmap string np.ndarray)
    (weights : gmap string Q) : result np.ndarray :=
  w_if ← getitem weights "IF";
  s_if ← getitem scores "IF";
  w_pca ← getitem weights "PCA";
  s_pca ← getitem scores "PCA";
  t ← np.add (np.scalar_mul w_if s_if) (np.scalar_mul w_pca s_pca);
  w_svm ← getitem weights "SVM";
  s_svm ← getitem scores "SVM";
  combined ← np.add t (np.scalar_mul w_svm s_svm);
  lo ← np.min combined;
  hi ← np.max combined;
  np.interp combined [lo; hi] [0; 100].

Definition default_weights : gmap string Q :=
  {[ "IF" := 0.5; "PCA" := 0.3; "SVM" := 0.2 ]}.

Definition mk_scores (s_if s_pca s_svm : np.ndarray) : gmap string np.ndarray :=
  {[ "IF" := s_if; "PCA" := s_pca; "SVM" := s_svm ]}.

(** ** binary64: the product behind the split index *)

Module f64.

(** Round a non-negative integer to 53 significant bits, ties to even:
    the nearest binary64 value of an integer (or, up to a power of two,
    of any positive real given by its integer numerator). *)
Definition round53 (p : Z) : Z :=
  let bits := (Z.log2 p + 1)%Z in
  if (bits <=? 53)%Z then p
  else
    let s := (bits - 53)%Z in
    let q := (p / 2 ^ s)%Z in
    let r := (p mod 2 ^ s)%Z in
    let half := (2 ^ (s - 1))%Z in
    let up := orb (half <? r)%Z (andb (r =? half)%Z (Z.odd q)) in
    ((if up then q + 1 else q) * 2 ^ s)%Z.

(** The literal [0.7] is the binary64 value [0x1.6666666666666p-1],
    that is [mantissa_0_7 / 2^53]. *)
Definition mantissa_0_7 : Z := 6305039478318694.

(** [int(n * 0.7)] for a Python int [n >= 0]: [n] is converted to
    binary64, the product is rounded to binary64, and [int] truncates. *)
Definition int_mul_0_7 (n : Z) : Z :=
  (round53 (round53 n * mantissa_0_7) / 2 ^ 53)%Z.

End f64.

(** ** pandas: columns, frames and the operations the pipeline uses *)

Module pd.

(** A cell of a column: a float (ints included), NaN, a parsed
    timestamp in nanoseconds, NaT, or any other object (text). *)
Inductive cell : Type :=
  | Num (x : Q)
  | NaN
  | Ts (ns : Z)
  | NaT
  | Obj (s : string).

Inductive dtype : Type := number | datetime64 | object.

#[global] Instance dtype_eq_dec : EqDecision dtype.
Proof. solve_decision. Defined.

Record Series : Type := mkSeries { dtype_of : dtype; values : list cell }.

(** A frame keeps its columns in order; [nrows] is the length of its
    index. *)
Record DataFrame : Type :=
  mkFrame { nrows : nat; columns : list (string * Series) }.

Definition isna (c : cell) : bool :=
  match c with
  | NaN | NaT => true
  | _ => false
  end.

Fixpoint assoc {V} (k : string) (l : list (string * V)) : option V :=
  match l with
  | [] => None
  | (k', v) :: l' => if String.eqb k' k then Some v else assoc k l'
  end.

Fixpoint assoc_set {V} (k : string) (v : V) (l : list (string * V))
    : list (string * V) :=
  match l with
  | [] => [(k, v)]
  | (k', v') :: l' =>
      if String.eqb k' k then (k, v) :: l' else (k', v') :: assoc_set k v l'
  end.

(** [df[col]]. *)
Definition getitem (df : DataFrame) (col : string) : result Series :=
  match assoc col (columns df) with
  | Some s => Ok s
  | None => Raise KeyError
  end.

(** [col in df.columns]. *)
Definition contains (df : DataFrame) (col : string) : bool :=
  bool_decide (is_Some (assoc col (columns df))).

(** [df[col] = s]: replaces the column in place when the name exists,
    appends it otherwise; a value of the wrong length is a
    [ValueError]. *)
Definition setitem (df : DataFrame) (col : string) (s : Series)
    : result DataFrame :=
  if (length (values s) =? nrows df)%nat then
    Ok (mkFrame (nrows df) (assoc_set col s (columns df)))
  else Raise ValueError.

Definition of_array (a : np.ndarray) : Series := mkSeries number (map Num a).

Definition map_columns (f : list cell → list cell) (n : nat)
    (df : DataFrame) : DataFrame :=
  mkFrame n (map (λ c, (c.1, mkSeries (dtype_of c.2) (f (values c.2))))
                 (columns df)).

(** [df.take(indexer)] followed by [reset_index(drop=True)]. *)
Definition take_rows (idx : list nat) (df : DataFrame) : DataFrame :=
  map_columns (λ v, np.take_idx NaN v idx) (length idx) df.

(** [df.iloc[:k]] and [df.iloc[k:]] for [k >= 0]. *)
Definition iloc_to (k : nat) (df : DataFrame) : DataFrame :=
  map_columns (take k) (Nat.min k (nrows df)) df.

Definition iloc_from (k : nat) (df : DataFrame) : DataFrame :=
  map_columns (drop k) (nrows df - k) df.

(** [df.select_dtypes(include=[np.number])]. *)
Definition select_number (df : DataFrame) : DataFrame :=
  mkFrame (nrows df)
    (filter (λ c, dtype_of c.2 = number) (columns df)).

(** [Series.mean()] with the default [skipna=True]: the mean of the
    values that are present, NaN when there is none. *)
Definition present (v : list cell) : list Q :=
  omap (λ c, match c with Num x => Some x | _ => None end) v.

Definition mean (v : list cell) : cell :=
  match present v with
  | [] => NaN
  | p => Num (np.mean p)
  end.

(** [df.fillna(df.mean())]: every missing cell of a column receives that
    column's entry of the mean vector. *)
Definition fill (m : cell) (v : list cell) : list cell :=
  map (λ c, if isna c then m else c) v.

Definition fillna_mean (df : DataFrame) : DataFrame :=
  map_columns (λ v, fill (mean v) v) (nrows df) df.

(** The float matrix scikit-learn reads from a frame; its input check
    rejects NaN with a [ValueError]. *)
Definition to_numpy (df : DataFrame) : result np.matrix :=
  map_result (λ i,
    map_result (λ c : string * Series,
            match nth i (values c.2) NaN with
            | Num x => Ok x
            | _ => Raise ValueError
            end) (columns df))
    (seq 0 (nrows df)).

(** The cells of a column, empty when the frame has no such column. *)
Definition column_values (df : DataFrame) (col : string) : list cell :=
  from_option values [] (assoc col (columns df)).

(** The column [pd.to_datetime] returns, and the sort key of a cell of
    such a column ([None] for a missing timestamp). *)
Definition of_timestamp (o : option Z) : cell :=
  match o with
  | Some z => Ts z
  | None => NaT
  end.

Definition to_timestamp (c : cell) : option Z :=
  match c with
  | Ts z => Some z
  | _ => None
  end.

Definition of_timestamps (ts : list (option Z)) : Series :=
  mkSeries datetime64 (map of_timestamp ts).

End pd.

(** The order [sort_values] sorts a datetime column by: ascending, with
    missing timestamps last. *)
Definition ts_le (a b : pd.cell) : Prop :=
  match a, b with
  | pd.Ts x, pd.Ts y => (x <= y)%Z
  | _, pd.NaT => True
  | _, _ => False
  end.

(** ** The library operations taken as an interface

    [np_argsort] and [np_argsort_datetime] are [np.argsort] with the
    default [kind='quicksort'] on float64 and on datetime64 data;
    [to_datetime] is [pd.to_datetime] on a column ([None] when it raises,
    a [None] entry for NaT); the remaining fields are the scikit-learn
    estimators with the hyper-parameters [fit_models] fixes. *)

Class Library : Type := mkLibrary {
  np_argsort : list Q → list nat;
  np_argsort_datetime : list Z → list nat;
  to_datetime : list pd.cell → option (list (option Z));
  StandardScaler : Type;
  IsolationForest : Type;
  PCA : Type;
  OneClassSVM : Type;
  StandardScaler_fit : np.matrix → option StandardScaler;
  StandardScaler_transform : StandardScaler → np.matrix → option np.matrix;
  IsolationForest_fit : np.matrix → option IsolationForest;
  IsolationForest_score_samples : IsolationForest → np.matrix → option np.ndarray;
  PCA_fit : np.matrix → option PCA;
  PCA_transform : PCA → np.matrix → option np.matrix;
  PCA_inverse_transform : PCA → np.matrix → option np.matrix;
  OneClassSVM_fit : np.matrix → option OneClassSVM;
  OneClassSVM_score_samples : OneClassSVM → np.matrix → option np.ndarray
}.

(** The three fitted models of [fit_models]. *)
Record Models `{Library} : Type := mkModels {
  model_IF : IsolationForest;
  model_PCA : PCA;
  model_SVM : OneClassSVM
}.

Section pipeline.
Context `{L : Library}.

(** [pandas.core.sorting.nargsort] with [na_position='last'], as pandas
    writes it: [mask = isna(items)], [idx = arange(len(items))],
    [indexer = idx[~mask][items[~mask].argsort()]], then the positions of
    the missing timestamps, [np.nonzero(mask)[0]], are appended. *)
Definition nargsort (items : list (option Z)) : list nat :=
  let mask := map (λ o : option Z, bool_decide (o = None)) items in
  let idx := seq 0 (length items) in
  let non_nans := omap id (np.compress (map negb mask) items) in
  let non_nan_idx := np.compress (map negb mask) idx in
  let nan_idx := np.compress mask idx in
  np.take_idx 0%nat non_nan_idx (np_argsort_datetime non_nans) ++ nan_idx.

(** Step 1: [validate_and_prepare]. *)
Definition validate_and_prepare (df : pd.DataFrame) : pd.DataFrame :=
  let numeric_df := pd.select_number df in
  pd.fillna_mean numeric_df.

(** Step 2: [scale_data]. *)
Definition scale_data (train_df test_df : pd.DataFrame)
    : result (np.matrix * np.matrix * StandardScaler) :=
  A_train ← pd.to_numpy train_df;
  scaler ← lift (StandardScaler_fit A_train);
  X_train ← lift (StandardScaler_transform scaler A_train);
  A_test ← pd.to_numpy test_df;
  X_test ← lift (StandardScaler_transform scaler A_test);
  Ok (X_train, X_test, scaler).

(** Step 3: [fit_models]. *)
Definition fit_models (X_train : np.matrix) : result Models :=
  m_if ← lift (IsolationForest_fit X_train);
  m_pca ← lift (PCA_fit X_train);
  m_svm ← lift (OneClassSVM_fit X_train);
  Ok (mkModels _ m_if m_pca m_svm).

(** [pca_reconstruction_error]. *)
Definition pca_reconstruction_error (model : PCA) (X : np.matrix)
    : result np.ndarray :=
  Z ← lift (PCA_transform model X);
  X_proj ← lift (PCA_inverse_transform model Z);
  np.mean_sq_diff_axis1 X X_proj.

(** Step 4: [score_models]. *)
Definition score_models (models : Models) (X_test : np.matrix)
    : result (gmap string np.ndarray) :=
  s_if ← lift (IsolationForest_score_samples (model_IF models) X_test);
  s_pca ← pca_reconstruction_error (model_PCA models) X_test;
  s_svm ← lift (OneClassSVM_score_samples (model_SVM models) X_test);
  Ok (mk_scores (np.neg s_if) s_pca (np.neg s_svm)).

(** Step 6: [get_top_features]. *)
Definition list_getitem {A} (l : list A) (i : nat) : result A :=
  match l !! i with
  | Some a => Ok a
  | None => Raise IndexError
  end.

Definition get_top_features (X : np.matrix) (feature_names : list string)
    (k : Z) : result (list string) :=
  let variances := np.var_axis0 X in
  let top_indices := np.slice_to k (reverse (np_argsort variances)) in
  map_result (list_getitem feature_names) top_indices.

(** [df.sort_values(by=by_).reset_index(drop=True)] on a datetime
    column. *)
Definition sort_values (df : pd.DataFrame) (by_ : string) : result pd.DataFrame :=
  s ← pd.getitem df by_;
  let keys := map pd.to_timestamp (pd.values s) in
  Ok (pd.take_rows (nargsort keys) df).

(** [run_anomaly_pipeline], lines 77-83: parse the timestamps, sort by
    them, split at [int(len(df_raw) * 0.7)]. *)
Definition temporal_split (df_raw : pd.DataFrame) (time_col : string)
    : result (pd.DataFrame * pd.DataFrame) :=
  col ← pd.getitem df_raw time_col;
  ts ← lift (to_datetime (pd.values col));
  df_raw ← pd.setitem df_raw time_col (pd.of_timestamps ts);
  df_raw ← sort_values df_raw time_col;
  let split_idx := Z.to_nat (f64.int_mul_0_7 (Z.of_nat (pd.nrows df_raw))) in
  Ok (pd.iloc_to split_idx df_raw, pd.iloc_from split_idx df_raw).

(** [run_anomaly_pipeline], lines 86-89: each partition is cleaned by a
    call of its own, and the feature names are the training columns. *)
Definition clean_partitions (df_train df_test : pd.DataFrame)
    : pd.DataFrame * pd.DataFrame * list string :=
  let df_train_clean := validate_and_prepare df_train in
  let df_test_clean := validate_and_prepare df_test in
  let feature_names := (pd.columns df_train_clean).*1 in
  (df_train_clean, df_test_clean, feature_names).

(** [run_anomaly_pipeline], lines 103-108: the test records with the
    composite score and the three raw scores. *)
Definition add_score_columns (df_test : pd.DataFrame) (ens : np.ndarray)
    (raw_scores : gmap string np.ndarray) : result pd.DataFrame :=
  output_df ← pd.setitem df_test "abnormality_score" (pd.of_array ens);
  s_if ← getitem raw_scores "IF";
  output_df ← pd.setitem output_df "IF_score" (pd.of_array s_if);
  s_pca ← getitem raw_scores "PCA";
  output_df ← pd.setitem output_df "PCA_score" (pd.of_array s_pca);
  s_svm ← getitem raw_scores "SVM";
  pd.setitem output_df "SVM_score" (pd.of_array s_svm).

(** [run_anomaly_pipeline], lines 112-114: one step of the loop over the
    ranked features, and the loop. *)
Definition add_copy (df_test : pd.DataFrame) (acc : result pd.DataFrame)
    (col : string) : result pd.DataFrame :=
  output_df ← acc;
  if pd.contains df_test col then
    s ← pd.getitem df_test col;
    pd.setitem output_df (col +:+ "_copy") s
  else Ok output_df.

Definition add_feature_copies (df_test output_df : pd.DataFrame)
    (top_features : list string) : result pd.DataFrame :=
  foldl (add_copy df_test) (Ok output_df) top_features.

(** The output stage as a whole, for given ranked features. *)
Definition assemble_output (df_test : pd.DataFrame) (ens : np.ndarray)
    (raw_scores : gmap string np.ndarray) (top_features : list string)
    : result pd.DataFrame :=
  output_df ← add_score_columns df_test ens raw_scores;
  add_feature_copies df_test output_df top_features.

(** [run_anomaly_pipeline] on the frame [pd.read_csv] returned.  The
    progress messages it prints are left out, and so is the CSV file
    [save_output] writes: the function returns the frame it saved. *)
Definition run_anomaly_pipeline (df_raw : pd.DataFrame) (time_col : string)
    : result pd.DataFrame :=
  '(df_train, df_test) ← temporal_split df_raw time_col;
  let '(df_train_clean, df_test_clean, feature_names) :=
    clean_partitions df_train df_test in
  '(X_train, X_test, _) ← scale_data df_train_clean df_test_clean;
  models ← fit_models X_train;
  raw_scores ← score_models models X_test;
  ens ← ensemble_score raw_scores default_weights;
  output_df ← add_score_columns df_test ens raw_scores;
  top_features ← get_top_features X_train feature_names 7;
  add_feature_copies df_test output_df top_features.

End pipeline.

(** ** An instance of the interface, to run the model on data

    The two sorts are the insertion sort above.  The parser reads epoch
    numbers and rejects text.  The estimators are small stand-ins with the
    shapes of the real ones: the scaler centres each column (unit scale),
    the forest scores a row by minus its squared norm, the projection
    keeps the first coordinate, the boundary scores a row by minus its
    first coordinate squared; each rejects an empty matrix. *)

Definition sample_to_datetime (v : list pd.cell) : option (list (option Z)) :=
  mapM (λ c,
    match c with
    | pd.Num x => Some (Some (Qfloor x))
    | pd.Ts z => Some (Some z)
    | pd.NaN | pd.NaT => Some None
    | pd.Obj _ => None
    end) v.

Definition nonempty_matrix (X : np.matrix) : option np.matrix :=
  match X with
  | [] => None
  | _ => Some X
  end.

Definition sample_scaler_fit (X : np.matrix) : option (list Q) :=
  X ← nonempty_matrix X;
  Some (map (λ j, np.mean (np.column X j)) (seq 0 (np.ncols X))).

Definition sample_scaler_transform (means : list Q) (X : np.matrix)
    : option np.matrix :=
  X ← nonempty_matrix X;
  if forallb (λ r, length r =? length means)%nat X then
    Some (map (λ r, zip_with Qminus r means) X)
  else None.

Definition sq_norm (r : list Q) : Q := np.sum (map (λ x, x * x) r).

#[global] Instance sample_library : Library := {|
  np_argsort := np.insertion_argsort Qle_bool 0;
  np_argsort_datetime := np.insertion_argsort Z.leb 0%Z;
  to_datetime := sample_to_datetime;
  StandardScaler := list Q;
  IsolationForest := unit;
  PCA := nat;
  OneClassSVM := unit;
  StandardScaler_fit := sample_scaler_fit;
  StandardScaler_transform := sample_scaler_transform;
  IsolationForest_fit := λ X, _ ← nonempty_matrix X; Some ();
  IsolationForest_score_samples := λ _ X,
    X ← nonempty_matrix X; Some (map (λ r, - sq_norm r) X);
  PCA_fit := λ X, X ← nonempty_matrix X; Some (np.ncols X);
  PCA_transform := λ _ X, X ← nonempty_matrix X; Some (map (take 1) X);
  PCA_inverse_transform := λ n Z,
    Some (map (λ r, r ++ replicate (n - length r) 0) Z);
  OneClassSVM_fit := λ X, _ ← nonempty_matrix X; Some ();
  OneClassSVM_score_samples := λ _ X,
    X ← nonempty_matrix X; Some (map (λ r, - (hd 0 r * hd 0 r)) X)
|}.

(** Sample data: four records out of time order, one missing reading, one
    text column. *)
Definition sample_frame : pd.DataFrame :=
  pd.mkFrame 4
    [ ("Time", pd.mkSeries pd.number [pd.Num 3; pd.Num 1; pd.Num 4; pd.Num 2]);
      ("load", pd.mkSeries pd.number [pd.Num 30; pd.Num 10; pd.NaN; pd.Num 20]);
      ("host", pd.mkSeries pd.object [pd.Obj "c"; pd.Obj "a"; pd.Obj "d"; pd.Obj "b"]);
      ("temp", pd.mkSeries pd.number [pd.Num 7; pd.Num 5; pd.Num 9; pd.Num 5]) ].

(** The detectors a mapping holds, as the data model names them. *)
Definition holds {V} (d : gmap string V) (v_if v_pca v_svm : V) : Prop :=
  d !! "IF" = Some v_if ∧ d !! "PCA" = Some v_pca ∧ d !! "SVM" = Some v_svm.

(** The Ensembler as section 4.6 of the specification words it:
    [combined[i]] is the weighted sum of the three raw scores at [i]. *)
Definition weighted_sum_spec (w_if w_pca w_svm : Q) (s_if s_pca s_svm : list Q)
    : list Q :=
  map (λ i, w_if * nth i s_if 0 + w_pca * nth i s_pca 0 + w_svm * nth i s_svm 0)
      (seq 0 (length s_if)).

Definition is_min (lo : Q) (a : list Q) : Prop := lo ∈ a ∧ Forall (Qle lo) a.
Definition is_max (hi : Q) (a : list Q) : Prop := hi ∈ a ∧ Forall (λ x, x <= hi) a.

(** Scores on which the weighted sums coincide, and weights that sum to
    1.5. *)
Definition degenerate_scores : gmap string np.ndarray :=
  mk_scores [1; 1] [0; 0] [0; 0].

Definition heavy_weights : gmap string Q :=
  {[ "IF" := 0.5; "PCA" := 0.5; "SVM" := 0.5 ]}.

(** Feature matrices for the ranking: two columns of equal variance, and
    the scenario of the specification (variances 10, 1 and 100). *)
Definition tied_matrix : list (list Q) := [[1; 1]; [3; 3]].

Definition scenario_matrix : list (list Q) :=
  [[-4; 0; 0]; [-3; 0; 0]; [0; 0; 0]; [3; 0; 0]; [4; 2.5; 25]].

(** [<=] on [Q] is decidable, so a sort contract on concrete data can be
    checked by computation. *)
#[global] Instance Qle_dec : RelDecision Qle :=
  λ x y, decide (Qnum x * QDen y ≤ Qnum y * QDen x)%Z.

(** Frames for the splitter: ten and ninety records in time order, and a
    single record. *)
Definition epoch_column (n : nat) : pd.Series :=
  pd.mkSeries pd.number (map (λ i, pd.Num (inject_Z (Z.of_nat i))) (seq 0 n)).

Definition ten_rows : pd.DataFrame :=
  pd.mkFrame 10 [("Time", epoch_column 10); ("load", epoch_column 10)].

Definition one_row : pd.DataFrame :=
  pd.mkFrame 1
    [ ("Time", pd.mkSeries pd.number [pd.Num 5]);
      ("load", pd.mkSeries pd.number [pd.Num 30]) ].

Definition ninety_rows : pd.DataFrame :=
  pd.mkFrame 90 [("Time", epoch_column 90)].

(** The exceptions Python and the libraries define, as opposed to the
    error names of the specification. *)
Definition python_exn (e : exn) : Prop :=
  e = KeyError ∨ e = IndexError ∨ e = ValueError.

Definition raises_only_python {A} (r : result A) : Prop :=
  ∀ e, r = Raise e → python_exn e.

(** The columns the output stage writes: the four score columns and one
    copy per ranked feature that the test partition has. *)
Definition score_columns : list string :=
  ["abnormality_score"; "IF_score"; "PCA_score"; "SVM_score"].

Definition copy_columns (df_test : pd.DataFrame) (top_features : list string)
    : list string :=
  map (λ col, col +:+ "_copy")
      (filter (λ col, pd.contains df_test col = true) top_features).

(** A frame that already has a column named [abnormality_score], as the
    pipeline's own output has. *)
Definition rerun_frame : pd.DataFrame :=
  pd.mkFrame 4
    [ ("Time", pd.mkSeries pd.number [pd.Num 1; pd.Num 2; pd.Num 3; pd.Num 4]);
      ("load", pd.mkSeries pd.number [pd.Num 10; pd.Num 20; pd.Num 30; pd.Num 50]);
      ("abnormality_score",
       pd.mkSeries pd.number [pd.Num 150; pd.Num 250; pd.Num 350; pd.Num 450]) ].

(** ** The dashboard: what [app/dashboard.py] computes from the frame
    [run_anomaly_pipeline] returns *)

Module dashboard.




(** [sub in s] on strings. *)
Fixpoint str_contains (sub s : string) : bool :=
  if String.prefix sub s then true
  else match s with
       | EmptyString => false
       | String _ s' => str_contains sub s'
       end.

(** Line 81, [[c for c in output_df.columns if "_copy" in c]]. *)
Definition top_cols (output_df : pd.DataFrame) : list string :=
  filter (λ c, str_contains "_copy" c = true) (pd.columns output_df).*1.

End dashboard.

(** * Properties *)

(** ** Comparisons on [Q] *)

Lemma Qle_bool_false (x y : Q) : Qle_bool x y = false ↔ y < x.
Proof.
  split.
  - intros H. apply Qnot_le_lt. intros Hle.
    apply Qle_bool_iff in Hle. congruence.
  - intros H. destruct (Qle_bool x y) eqn:E; [|done].
    apply Qle_bool_iff in E. exfalso. eapply Qlt_not_le; eauto.
Qed.


Lemma ltb_false (x y : Q) : np.ltb x y = false ↔ y <= x.
Proof.
  unfold np.ltb. rewrite negb_false_iff. apply Qle_bool_iff.
Qed.

(** ** [a.min()] and [a.max()] *)

Lemma foldl_minimum_spec (a : list Q) (x : Q) :
  foldl np.minimum x a ∈ x :: a
  ∧ foldl np.minimum x a <= x
  ∧ Forall (Qle (foldl np.minimum x a)) a.
Proof.
  revert x. induction a as [|y a IH]; intros x; simpl.
  - split; [left|split; [apply Qle_refl|constructor]].
  - destruct (IH (np.minimum x y)) as (Hin & Hle & Hall).
    assert (Hm : np.minimum x y <= x ∧ np.minimum x y <= y).
    { unfold np.minimum. destruct (Qle_bool x y) eqn:E.
      - apply Qle_bool_iff in E. split; [apply Qle_refl|done].
      - apply Qle_bool_false in E. split; [by apply Qlt_le_weak|apply Qle_refl]. }
    destruct Hm as [Hx Hy]. split; [|split].
    + apply elem_of_cons in Hin as [->|Hin].
      * unfold np.minimum. destruct (Qle_bool x y); [left|right; left].
      * right; by right.
    + by eapply Qle_trans.
    + constructor; [by eapply Qle_trans|done].
Qed.

Lemma foldl_maximum_spec (a : list Q) (x : Q) :
  foldl np.maximum x a ∈ x :: a
  ∧ x <= foldl np.maximum x a
  ∧ Forall (λ y, y <= foldl np.maximum x a) a.
Proof.
  revert x. induction a as [|y a IH]; intros x; simpl.
  - split; [left|split; [apply Qle_refl|constructor]].
  - destruct (IH (np.maximum x y)) as (Hin & Hle & Hall).
    assert (Hm : x <= np.maximum x y ∧ y <= np.maximum x y).
    { unfold np.maximum. destruct (Qle_bool x y) eqn:E.
      - apply Qle_bool_iff in E. split; [done|apply Qle_refl].
      - apply Qle_bool_false in E. split; [apply Qle_refl|by apply Qlt_le_weak]. }
    destruct Hm as [Hx Hy]. split; [|split].
    + apply elem_of_cons in Hin as [->|Hin].
      * unfold np.maximum. destruct (Qle_bool x y); [right; left|left].
      * right; by right.
    + by eapply Qle_trans.
    + constructor; [by eapply Qle_trans|done].
Qed.

Lemma min_spec (a : list Q) :
  a ≠ [] → ∃ lo, np.min a = Ok lo ∧ is_min lo a.
Proof.
  destruct a as [|x a]; [done|]. intros _.
  destruct (foldl_minimum_spec a x) as (Hin & Hle & Hall).
  eexists; split; [done|]. split; [done|]. by constructor.
Qed.

Lemma max_spec (a : list Q) :
  a ≠ [] → ∃ hi, np.max a = Ok hi ∧ is_max hi a.
Proof.
  destruct a as [|x a]; [done|]. intros _.
  destruct (foldl_maximum_spec a x) as (Hin & Hle & Hall).
  eexists; split; [done|]. split; [done|]. by constructor.
Qed.

(** ** [np.interp] on the two sample points [(lo, hi)] *)

Lemma interp_point_affine (lo hi c : Q) :
  lo < hi → lo <= c → c <= hi →
  np.interp_point [lo; hi] [0; 100] c == 100 * (c - lo) / (hi - lo).
Proof.
  intros Hlt Hlo Hhi.
  assert (Hnz : ¬ hi - lo == 0) by lra.
  unfold np.interp_point, np.binary_search_with_guess. simpl.
  rewrite (proj2 (ltb_false _ _) Hhi), (proj2 (ltb_false _ _) Hlo).
  destruct (Qle_bool hi c) eqn:E; simpl.
  - apply Qle_bool_iff in E. assert (Hc : c == hi) by lra.
    rewrite Hc. field. done.
  - destruct (Qeq_bool lo c) eqn:E2.
    + apply Qeq_bool_iff in E2. rewrite <- E2. field. done.
    + field. done.
Qed.

Lemma interp_point_degenerate (lo hi c : Q) :
  lo == hi → c == lo → np.interp_point [lo; hi] [0; 100] c = 100.
Proof.
  intros Heq Hc.
  unfold np.interp_point, np.binary_search_with_guess. simpl.
  assert (H1 : hi <= c) by lra.
  assert (H2 : lo <= c) by lra.
  assert (H3 : c <= hi) by lra.
  rewrite (proj2 (ltb_false _ _) H3), (proj2 (ltb_false _ _) H2).
  apply Qle_bool_iff in H1 as ->. done.
Qed.


(** ** The weighted sum *)

Lemma add_same_length (a b : np.ndarray) :
  length a = length b → np.add a b = Ok (zip_with Qplus a b).
Proof.
  intros H. unfold np.add. by rewrite H, Nat.eqb_refl.
Qed.

Lemma weighted_sum_spec_cons (w1 w2 w3 x y z : Q) (s1 s2 s3 : list Q) :
  weighted_sum_spec w1 w2 w3 (x :: s1) (y :: s2) (z :: s3)
  = (w1 * x + w2 * y + w3 * z) :: weighted_sum_spec w1 w2 w3 s1 s2 s3.
Proof.
  unfold weighted_sum_spec. simpl. f_equal.
  rewrite <- seq_shift, map_map. done.
Qed.

Lemma combined_is_weighted_sum (w1 w2 w3 : Q) (s1 s2 s3 : list Q) :
  length s1 = length s2 → length s2 = length s3 →
  zip_with Qplus
    (zip_with Qplus (np.scalar_mul w1 s1) (np.scalar_mul w2 s2))
    (np.scalar_mul w3 s3)
  = weighted_sum_spec w1 w2 w3 s1 s2 s3.
Proof.
  revert s2 s3. induction s1 as [|x s1 IH]; intros [|y s2] [|z s3] H12 H23;
    simplify_eq/=; [done|].
  rewrite weighted_sum_spec_cons. f_equal. by apply IH.
Qed.

Lemma weighted_sum_spec_length (w1 w2 w3 : Q) (s1 s2 s3 : list Q) :
  length (weighted_sum_spec w1 w2 w3 s1 s2 s3) = length s1.
Proof. unfold weighted_sum_spec. by rewrite length_map, length_seq. Qed.

Lemma ensemble_score_typed (scores : gmap string np.ndarray)
    (weights : gmap string Q) (w1 w2 w3 : Q) (s1 s2 s3 : list Q) :
  holds weights w1 w2 w3 → holds scores s1 s2 s3 →
  length s1 = length s2 → length s2 = length s3 → s1 ≠ [] →
  ∃ lo hi,
    is_min lo (weighted_sum_spec w1 w2 w3 s1 s2 s3)
    ∧ is_max hi (weighted_sum_spec w1 w2 w3 s1 s2 s3)
    ∧ ensemble_score scores weights
      = Ok (map (np.interp_point [lo; hi] [0; 100])
                (weighted_sum_spec w1 w2 w3 s1 s2 s3)).
Proof.
  intros (Hw1 & Hw2 & Hw3) (Hs1 & Hs2 & Hs3) H12 H23 Hne.
  set (combined := weighted_sum_spec w1 w2 w3 s1 s2 s3).
  assert (Hc : combined ≠ []).
  { intros E. apply (f_equal length) in E.
    unfold combined in E. rewrite weighted_sum_spec_length in E.
    by destruct s1. }
  destruct (min_spec combined Hc) as (lo & Elo & Hlo).
  destruct (max_spec combined Hc) as (hi & Ehi & Hhi).
  exists lo, hi. split; [done|]. split; [done|].
  unfold ensemble_score, getitem.
  rewrite Hw1, Hs1, Hw2, Hs2, Hw3, Hs3. simpl.
  rewrite add_same_length by (unfold np.scalar_mul; rewrite !length_map; done).
  simpl. rewrite add_same_length.
  2:{ unfold np.scalar_mul. rewrite length_zip_with, !length_map. lia. }
  simpl. rewrite combined_is_weighted_sum by done.
  fold combined. rewrite Elo. simpl. rewrite Ehi. simpl. done.
Qed.


Lemma is_min_le (lo : Q) (a : list Q) (c : Q) : is_min lo a → c ∈ a → lo <= c.
Proof. intros [_ H] Hc. by eapply Forall_forall in H. Qed.

Lemma is_max_ge (hi : Q) (a : list Q) (c : Q) : is_max hi a → c ∈ a → c <= hi.
Proof. intros [_ H] Hc. rewrite Forall_forall in H. by apply H. Qed.



Lemma map_constant {A B} (f : A → B) (v : B) (l : list A) :
  (∀ x, x ∈ l → f x = v) → map f l = replicate (length l) v.
Proof.
  induction l as [|x l IH]; intros H; simpl; [done|].
  rewrite H by left. f_equal. apply IH. intros y Hy. apply H. by right.
Qed.

(** C2, as the code has it.  When all weighted sums are equal,
    [np.interp] is called with the two sample points equal; its search
    then selects the last sample point, so every composite score is 100
    (not 0), and nothing is raised. *)
Theorem ensemble_score_degenerate_all_100
    (scores : gmap string np.ndarray) (weights : gmap string Q)
    (w_if w_pca w_svm : Q) (s_if s_pca s_svm : list Q) :
  holds weights w_if w_pca w_svm →
  holds scores s_if s_pca s_svm →
  length s_if = length s_pca → length s_pca = length s_svm → s_if ≠ [] →
  (∀ c c', c ∈ weighted_sum_spec w_if w_pca w_svm s_if s_pca s_svm →
           c' ∈ weighted_sum_spec w_if w_pca w_svm s_if s_pca s_svm →
           c == c') →
  ensemble_score scores weights = Ok (replicate (length s_if) 100).
Proof.
  intros Hw Hs H12 H23 Hne Hall.
  destruct (ensemble_score_typed _ _ _ _ _ _ _ _ Hw Hs H12 H23 Hne)
    as (lo & hi & [Hlo _] & [Hhi _] & ->).
  f_equal. rewrite <- (weighted_sum_spec_length w_if w_pca w_svm s_if s_pca s_svm).
  apply map_constant. intros c Hc.
  apply interp_point_degenerate; by apply Hall.
Qed.

Lemma ensemble_score_degenerate_all_100_witness :
  holds default_weights 0.5 0.3 0.2
  ∧ holds degenerate_scores [1; 1] [0; 0] [0; 0]
  ∧ ensemble_score degenerate_scores default_weights = Ok [100; 100].
Proof.
  assert (Hw : holds default_weights 0.5 0.3 0.2) by (by vm_compute).
  assert (Hs : holds degenerate_scores [1; 1] [0; 0] [0; 0]) by (by vm_compute).
  split; [exact Hw|]. split; [exact Hs|].
  refine (ensemble_score_degenerate_all_100 _ _ _ _ _ _ _ _ Hw Hs
            eq_refl eq_refl ltac:(discriminate) _).
  intros c c' Hc Hc'. vm_compute in Hc, Hc'.
  apply elem_of_cons in Hc as [->|Hc]; [|apply elem_of_cons in Hc as [->|Hc]];
    [| |by apply elem_of_nil in Hc];
    (apply elem_of_cons in Hc' as [->|Hc']; [|apply elem_of_cons in Hc' as [->|Hc']];
     [| |by apply elem_of_nil in Hc']); reflexivity.
Defined.

(** The claim of C2 fails on two records whose weighted sums are both
    0.5: the composite scores are 100 and 100. *)
Lemma ensemble_score_degenerate_not_zero :
  Forall (λ c, c == 0.5)
    (weighted_sum_spec 0.5 0.3 0.2 [1; 1] [0; 0] [0; 0])
  ∧ ensemble_score degenerate_scores default_weights = Ok [100; 100]
  ∧ ¬ (∃ out, ensemble_score degenerate_scores default_weights = Ok out
              ∧ Forall (λ y, y == 0) out).
Proof.
  assert (E : ensemble_score degenerate_scores default_weights = Ok [100; 100])
    by (by vm_compute).
  split; [repeat constructor|].
  split; [exact E|]. intros (out & Hout & Hzero).
  rewrite E in Hout. injection Hout as <-.
  apply Forall_cons in Hzero as [H _]. discriminate H.
Qed.

(** ** Which exceptions the pipeline can raise *)

Lemma rop_ok {A} (a : A) : raises_only_python (Ok a).
Proof. intros e H. discriminate H. Qed.

Lemma rop_bind {A B} (r : result A) (k : A → result B) :
  raises_only_python r → (∀ a, raises_only_python (k a)) →
  raises_only_python (r ≫= k).
Proof.
  intros Hr Hk. destruct r as [a|e']; [apply Hk|].
  intros e E. apply Hr. cbn in E. congruence.
Qed.

Lemma rop_lift {A} (o : option A) : raises_only_python (lift o).
Proof.
  destruct o; [apply rop_ok|]. intros e [= <-]. right; by right.
Qed.

Lemma rop_getitem {V} (d : gmap string V) (k : string) :
  raises_only_python (getitem d k).
Proof.
  unfold getitem. destruct (d !! k); [apply rop_ok|]. intros e [= <-]. by left.
Qed.

Lemma rop_list_getitem {A} (l : list A) (i : nat) :
  raises_only_python (list_getitem l i).
Proof.
  unfold list_getitem. destruct (l !! i); [apply rop_ok|].
  intros e [= <-]. right; by left.
Qed.

Lemma rop_value_error {A} : raises_only_python (@Raise A ValueError).
Proof. intros e [= <-]. right; by right. Qed.

Lemma rop_add (a b : list Q) : raises_only_python (np.add a b).
Proof.
  unfold np.add. destruct (_ =? _)%nat; [apply rop_ok|].
  destruct a as [|? [|? ?]], b as [|? [|? ?]];
    first [apply rop_ok|apply rop_value_error].
Qed.

Lemma rop_min (a : list Q) : raises_only_python (np.min a).
Proof. destruct a; [apply rop_value_error|apply rop_ok]. Qed.

Lemma rop_max (a : list Q) : raises_only_python (np.max a).
Proof. destruct a; [apply rop_value_error|apply rop_ok]. Qed.

Lemma rop_interp (x xp fp : list Q) : raises_only_python (np.interp x xp fp).
Proof.
  unfold np.interp. destruct xp as [|? [|? ?]]; [apply rop_value_error| |];
    destruct (_ =? _)%nat; first [apply rop_ok|apply rop_value_error].
Qed.

Lemma rop_mean_sq_diff (X Y : list (list Q)) :
  raises_only_python (np.mean_sq_diff_axis1 X Y).
Proof.
  unfold np.mean_sq_diff_axis1.
  case_bool_decide; [apply rop_ok|apply rop_value_error].
Qed.

Lemma rop_map_result {A B} (f : A → result B) (l : list A) :
  (∀ a, raises_only_python (f a)) → raises_only_python (map_result f l).
Proof.
  intros Hf. induction l as [|a l IH]; simpl; [apply rop_ok|].
  apply rop_bind; [apply Hf|intros b].
  apply rop_bind; [apply IH|intros bs]. apply rop_ok.
Qed.

Lemma rop_pd_getitem (df : pd.DataFrame) (col : string) :
  raises_only_python (pd.getitem df col).
Proof.
  unfold pd.getitem. destruct (pd.assoc _ _); [apply rop_ok|].
  intros e [= <-]. by left.
Qed.

Lemma rop_pd_setitem (df : pd.DataFrame) (col : string) (s : pd.Series) :
  raises_only_python (pd.setitem df col s).
Proof.
  unfold pd.setitem. destruct (_ =? _)%nat; [apply rop_ok|apply rop_value_error].
Qed.

Lemma rop_to_numpy (df : pd.DataFrame) : raises_only_python (pd.to_numpy df).
Proof.
  unfold pd.to_numpy. apply rop_map_result. intros i.
  apply rop_map_result. intros c.
  destruct (nth i _ _); first [apply rop_ok|apply rop_value_error].
Qed.

Create HintDb python discriminated.
#[global] Hint Resolve rop_ok rop_lift rop_getitem rop_list_getitem
  rop_value_error rop_add rop_min rop_max rop_interp rop_mean_sq_diff
  rop_pd_getitem rop_pd_setitem rop_to_numpy : python.

Ltac rop_steps :=
  repeat (apply rop_bind; [solve [auto with python]|intros ?]);
  auto with python.

Lemma rop_ensemble_score (scores : gmap string (list Q)) (weights : gmap string Q) :
  raises_only_python (ensemble_score scores weights).
Proof. unfold ensemble_score. rop_steps. Qed.

Section stages.
Context `{L : Library}.

Lemma rop_sort_values (df : pd.DataFrame) (by_ : string) :
  raises_only_python (sort_values df by_).
Proof. unfold sort_values. rop_steps. Qed.

Lemma rop_temporal_split (df_raw : pd.DataFrame) (time_col : string) :
  raises_only_python (temporal_split df_raw time_col).
Proof.
  unfold temporal_split.
  repeat (apply rop_bind;
          [solve [auto using rop_sort_values with python]|intros ?]).
  apply rop_ok.
Qed.

Lemma rop_scale_data (train_df test_df : pd.DataFrame) :
  raises_only_python (scale_data train_df test_df).
Proof. unfold scale_data. rop_steps. Qed.

Lemma rop_fit_models (X_train : list (list Q)) :
  raises_only_python (fit_models X_train).
Proof. unfold fit_models. rop_steps. Qed.

Lemma rop_pca_reconstruction_error (model : PCA) (X : list (list Q)) :
  raises_only_python (pca_reconstruction_error model X).
Proof. unfold pca_reconstruction_error. rop_steps. Qed.

Lemma rop_score_models (models : Models) (X_test : list (list Q)) :
  raises_only_python (score_models models X_test).
Proof.
  unfold score_models.
  repeat (apply rop_bind;
          [solve [auto using rop_pca_reconstruction_error with python]
          |intros ?]).
  apply rop_ok.
Qed.

Lemma rop_get_top_features (X : list (list Q)) (names : list string) (k : Z) :
  raises_only_python (get_top_features X names k).
Proof.
  unfold get_top_features. apply rop_map_result. auto with python.
Qed.

Lemma rop_add_copy (df_test : pd.DataFrame) (acc : result pd.DataFrame)
    (col : string) :
  raises_only_python acc → raises_only_python (add_copy df_test acc col).
Proof.
  intros Hacc. unfold add_copy. apply rop_bind; [done|intros out].
  destruct (pd.contains df_test col); [|apply rop_ok]. rop_steps.
Qed.

Lemma rop_add_score_columns (df_test : pd.DataFrame) (ens : list Q)
    (raw_scores : gmap string (list Q)) :
  raises_only_python (add_score_columns df_test ens raw_scores).
Proof. unfold add_score_columns. rop_steps. Qed.

Lemma rop_add_feature_copies (df_test output_df : pd.DataFrame)
    (top_features : list string) :
  raises_only_python (add_feature_copies df_test output_df top_features).
Proof.
  unfold add_feature_copies.
  assert (Hacc : raises_only_python (Ok output_df)) by apply rop_ok.
  revert Hacc. generalize (Ok output_df).
  induction top_features as [|c cs IH]; intros acc Hacc; simpl; [done|].
  apply IH. by apply rop_add_copy.
Qed.

Lemma rop_run_anomaly_pipeline (df_raw : pd.DataFrame) (time_col : string) :
  raises_only_python (run_anomaly_pipeline df_raw time_col).
Proof.
  unfold run_anomaly_pipeline.
  apply rop_bind; [apply rop_temporal_split|intros [df_train df_test]].
  apply rop_bind; [apply rop_scale_data|intros [[X_train X_test] scaler]].
  apply rop_bind; [apply rop_fit_models|intros models].
  apply rop_bind; [apply rop_score_models|intros raw_scores].
  apply rop_bind; [apply rop_ensemble_score|intros ens].
  apply rop_bind; [apply rop_add_score_columns|intros output_df].
  apply rop_bind; [apply rop_get_top_features|intros top_features].
  apply rop_add_feature_copies.
Qed.

End stages.

(** C3, as the code has it.  [ensemble_score] never inspects the sum of
    the weights: whatever the weight mapping, it does not raise
    [InvalidWeightsError] (the only exceptions it can raise are the
    [KeyError] of a missing detector and numpy's [ValueError]). *)
Theorem ensemble_score_never_invalid_weights
    (scores : gmap string (list Q)) (weights : gmap string Q) :
  ensemble_score scores weights ≠ Raise InvalidWeightsError.
Proof.
  intros E. apply rop_ensemble_score in E.
  destruct E as [E|[E|E]]; discriminate E.
Qed.

(** The claim of C3 fails on the weights of the specification's own
    example: they sum to 1.5 and the call returns the rescaled array. *)
Lemma ensemble_score_accepts_heavy_weights :
  holds heavy_weights 0.5 0.5 0.5
  ∧ ¬ 0.5 + 0.5 + 0.5 == 1
  ∧ ensemble_score (mk_scores [1; 2] [3; 4] [5; 6]) heavy_weights
    = Ok [0; 100].
Proof.
  split; [by vm_compute|]. split; [|by vm_compute].
  intros H. discriminate H.
Qed.

(** ** [get_top_features] *)

#[global] Instance Qle_transitive : Transitive Qle.
Proof. intros x y z. apply Qle_trans. Qed.

Lemma map_result_getitem {A} (d : A) (l : list A) (idx : list nat) :
  Forall (λ i, (i < length l)%nat) idx →
  map_result (list_getitem l) idx = Ok (np.take_idx d l idx).
Proof.
  induction 1 as [|i idx Hi _ IH]; simpl; [done|].
  destruct (lookup_lt_is_Some_2 l i Hi) as [a Ha].
  assert (E : list_getitem l i = Ok a) by (unfold list_getitem; by rewrite Ha).
  rewrite E, IH. cbn. do 2 f_equal.
  symmetry. by apply nth_lookup_Some.
Qed.

Lemma var_axis0_length (X : list (list Q)) : length (np.var_axis0 X) = np.ncols X.
Proof. unfold np.var_axis0. by rewrite length_map, length_seq. Qed.

Lemma take_idx_reverse {A} (d : A) (a : list A) (idx : list nat) :
  np.take_idx d a (reverse idx) = reverse (np.take_idx d a idx).
Proof. unfold np.take_idx. exact (fmap_reverse _ idx). Qed.

Lemma perm_range_bound (idx : list nat) (n : nat) :
  idx ≡ₚ seq 0 n → Forall (λ i, (i < n)%nat) idx.
Proof.
  intros H. apply Forall_forall. intros i Hi.
  rewrite H in Hi. apply elem_of_seq in Hi. lia.
Qed.

Lemma take_idx_seq {A} (d : A) (l : list A) :
  np.take_idx d l (seq 0 (length l)) = l.
Proof.
  apply list_eq. intros i. unfold np.take_idx.
  change (map ?f ?l) with (f <$> l). rewrite list_lookup_fmap.
  destruct (decide (i < length l)%nat) as [Hi|Hi].
  - rewrite lookup_seq_lt by done. simpl.
    destruct (lookup_lt_is_Some_2 l i Hi) as [a Ha]. rewrite Ha.
    f_equal. by apply nth_lookup_Some.
  - rewrite lookup_seq_ge by lia. simpl. symmetry. apply lookup_ge_None. lia.
Qed.

Lemma take_idx_perm {A} (d : A) (l : list A) (idx : list nat) :
  idx ≡ₚ seq 0 (length l) → np.take_idx d l idx ≡ₚ l.
Proof.
  intros H. unfold np.take_idx. change (map ?f ?l) with (f <$> l).
  rewrite H. exact (reflexive_eq _ _ (take_idx_seq d l)).
Qed.

Lemma take_idx_elem {A} (d : A) (a : list A) (idx : list nat) (i : nat) :
  i ∈ idx → nth i a d ∈ np.take_idx d a idx.
Proof.
  intros Hi. exact (list_elem_of_fmap_2 (λ i, nth i a d) idx i Hi).
Qed.

Lemma take_idx_app {A} (d : A) (a : list A) (i1 i2 : list nat) :
  np.take_idx d a (i1 ++ i2) = np.take_idx d a i1 ++ np.take_idx d a i2.
Proof. apply map_app. Qed.

(** The ranking both claims read: the positions in descending order of
    variance. *)
Section ranking.
Context `{L : Library}.
Variables (X : list (list Q)) (feature_names : list string).
Hypothesis Hsort :
  np.is_argsort Qle 0 (np.var_axis0 X) (np_argsort (np.var_axis0 X)).
Hypothesis Hnames : length feature_names = np.ncols X.

Lemma order_perm : reverse (np_argsort (np.var_axis0 X)) ≡ₚ seq 0 (np.ncols X).
Proof using Hsort.
  rewrite reverse_Permutation.
  destruct Hsort as [Hp _]. by rewrite var_axis0_length in Hp.
Qed.

Lemma order_descending :
  StronglySorted (λ x y, y <= x)
    (np.take_idx 0 (np.var_axis0 X) (reverse (np_argsort (np.var_axis0 X)))).
Proof using Hsort.
  rewrite take_idx_reverse.
  apply (Sorted_StronglySorted (flip Qle)).
  apply Sorted_reverse. by destruct Hsort.
Qed.

Lemma get_top_features_eval (k : Z) :
  get_top_features X feature_names k
  = Ok (np.take_idx "" feature_names
          (np.slice_to k (reverse (np_argsort (np.var_axis0 X))))).
Proof using Hsort Hnames.
  unfold get_top_features.
  apply map_result_getitem. rewrite Hnames.
  pose proof (perm_range_bound _ _ order_perm) as Hb.
  unfold np.slice_to. destruct (k <? 0)%Z; by apply Forall_take.
Qed.

End ranking.

(** C10.  When [k] is at least the number [m] of features (so for
    every [k > m], the default 7 on narrower data included),
    [get_top_features] raises nothing and returns all [m] names, each
    once, in an order along which the variances descend. *)
Theorem get_top_features_k_beyond_width `{L : Library}
    (X : list (list Q)) (feature_names : list string) (k : Z) :
  X ≠ [] → np.rectangular X →
  length feature_names = np.ncols X →
  np.is_argsort Qle 0 (np.var_axis0 X) (np_argsort (np.var_axis0 X)) →
  (Z.of_nat (np.ncols X) <= k)%Z →
  ∃ order,
    get_top_features X feature_names k
    = Ok (np.take_idx "" feature_names order)
    ∧ length order = np.ncols X
    ∧ order ≡ₚ seq 0 (np.ncols X)
    ∧ np.take_idx "" feature_names order ≡ₚ feature_names
    ∧ StronglySorted (λ x y, y <= x) (np.take_idx 0 (np.var_axis0 X) order).
Proof.
  intros _ _ Hnames Hsort Hk.
  pose proof (order_perm X Hsort) as Hperm.
  exists (reverse (np_argsort (np.var_axis0 X))).
  assert (Hlen : length (reverse (np_argsort (np.var_axis0 X))) = np.ncols X).
  { rewrite Hperm. apply length_seq. }
  split.
  - rewrite (get_top_features_eval X feature_names Hsort Hnames k).
    unfold np.slice_to. replace (k <? 0)%Z with false by lia.
    rewrite take_ge by lia. done.
  - split; [done|]. split; [done|]. split.
    + apply take_idx_perm. by rewrite Hnames.
    + by apply order_descending.
Qed.

Lemma argsort_10_1_100 (v : list Q) (idx : list nat) :
  Forall2 Qeq v [10; 1; 100] → np.is_argsort Qle 0 v idx → idx = [1; 0; 2]%nat.
Proof.
  intros Hv [Hp Hs].
  destruct v as [|v0 [|v1 [|v2 [|? ?]]]];
    try (by apply Forall2_length in Hv).
  apply Forall2_cons in Hv as [H0 Hv].
  apply Forall2_cons in Hv as [H1 Hv].
  apply Forall2_cons in Hv as [H2 _].
  simpl in Hp.
  pose proof (Permutation_length Hp) as Hlen.
  destruct idx as [|a [|b [|c [|? ?]]]]; try discriminate Hlen.
  assert (Hin : ∀ x, x ∈ [a; b; c] → (x = 0 ∨ x = 1 ∨ x = 2)%nat).
  { intros x Hx. rewrite Hp in Hx.
    repeat (apply elem_of_cons in Hx as [-> | Hx]; [lia|]).
    by apply elem_of_nil in Hx. }
  assert (Hnd : NoDup [a; b; c]) by (rewrite Hp; apply (NoDup_seq 0 3)).
  apply NoDup_cons in Hnd as [Hab Hnd]. apply NoDup_cons in Hnd as [Hbc _].
  apply Sorted_StronglySorted in Hs; [|apply _].
  apply StronglySorted_inv in Hs as [Hs Hfa].
  apply StronglySorted_inv in Hs as [_ Hfb].
  apply Forall_cons in Hfa as [Hab' Hfa]. apply Forall_cons in Hfa as [Hac' _].
  apply Forall_cons in Hfb as [Hbc' _].
  rewrite !elem_of_cons, elem_of_nil in Hab. rewrite !elem_of_cons, elem_of_nil in Hbc.
  destruct (Hin a) as [-> | [-> | ->]]; [repeat constructor|..];
    (destruct (Hin b) as [-> | [-> | ->]]; [repeat constructor|..]);
    (destruct (Hin c) as [-> | [-> | ->]]; [repeat constructor|..]);
    simpl in *; try done; try (exfalso; tauto); exfalso; lra.
Qed.

Lemma get_top_features_k_beyond_width_witness :
  np.is_argsort Qle 0 (np.var_axis0 scenario_matrix)
    (np_argsort (Library := sample_library) (np.var_axis0 scenario_matrix))
  ∧ ∃ order,
      get_top_features (L := sample_library) scenario_matrix
        ["cpu"; "mem"; "net"] 7
      = Ok (np.take_idx "" ["cpu"; "mem"; "net"] order)
      ∧ length order = 3%nat
      ∧ order ≡ₚ [0; 1; 2]%nat
      ∧ np.take_idx "" ["cpu"; "mem"; "net"] order ≡ₚ ["cpu"; "mem"; "net"]
      ∧ StronglySorted (λ x y, y <= x)
          (np.take_idx 0 (np.var_axis0 scenario_matrix) order).
Proof.
  assert (Hsort : np.is_argsort Qle 0 (np.var_axis0 scenario_matrix)
                    (np_argsort (np.var_axis0 scenario_matrix))).
  { split; apply (bool_decide_unpack _); by vm_compute. }
  split; [exact Hsort|].
  exact (get_top_features_k_beyond_width scenario_matrix
           ["cpu"; "mem"; "net"] 7
           ltac:(discriminate) ltac:(repeat constructor) eq_refl Hsort
           ltac:(by vm_compute)).
Defined.

(** C6, as the code has it.  For [0 <= k <= m], [get_top_features]
    returns [k] distinct names whose variances descend along the result
    and are not exceeded by the variance of any feature left out.  How
    features of equal variance are ordered is left to [np.argsort] and the
    reversal; no order among them is stated here.  With variances
    10, 1, 100 and [k = 2] the result is the third name, then the first. *)
Theorem get_top_features_k_highest `{L : Library}
    (X : list (list Q)) (feature_names : list string) (k : Z) :
  X ≠ [] → np.rectangular X →
  length feature_names = np.ncols X →
  np.is_argsort Qle 0 (np.var_axis0 X) (np_argsort (np.var_axis0 X)) →
  (0 <= k <= Z.of_nat (np.ncols X))%Z →
  ∃ top,
    get_top_features X feature_names k
    = Ok (np.take_idx "" feature_names top)
    ∧ length top = Z.to_nat k
    ∧ NoDup top
    ∧ Forall (λ i, (i < np.ncols X)%nat) top
    ∧ StronglySorted (λ x y, y <= x) (np.take_idx 0 (np.var_axis0 X) top)
    ∧ (∀ i j, i ∈ top → (j < np.ncols X)%nat → j ∉ top →
         nth j (np.var_axis0 X) 0 <= nth i (np.var_axis0 X) 0)
    ∧ (Forall2 Qeq (np.var_axis0 X) [10; 1; 100] → k = 2%Z →
         top = [2; 0]%nat).
Proof.
  intros _ _ Hnames Hsort Hk.
  pose proof (order_perm X Hsort) as Hperm.
  pose proof (order_descending X Hsort) as Hdesc.
  set (order := reverse (np_argsort (np.var_axis0 X))) in *.
  assert (Hlen : length order = np.ncols X).
  { rewrite Hperm. apply length_seq. }
  assert (Hslice : np.slice_to k order = take (Z.to_nat k) order).
  { unfold np.slice_to. by replace (k <? 0)%Z with false by lia. }
  exists (take (Z.to_nat k) order).
  rewrite <- (take_drop (Z.to_nat k) order) in Hperm, Hdesc.
  split; [|split; [|split; [|split; [|split; [|split]]]]].
  - rewrite (get_top_features_eval X feature_names Hsort Hnames k).
    fold order. by rewrite Hslice.
  - rewrite length_take. lia.
  - assert (Hnd : NoDup (take (Z.to_nat k) order ++ drop (Z.to_nat k) order))
      by (rewrite Hperm; apply NoDup_seq).
    by apply NoDup_app in Hnd as [? _].
  - apply Forall_forall. intros i Hi.
    assert (Hi' : i ∈ seq 0 (np.ncols X)).
    { rewrite <- Hperm. apply elem_of_app. by left. }
    apply elem_of_seq in Hi'. lia.
  - rewrite take_idx_app in Hdesc. by apply StronglySorted_app_1_l in Hdesc.
  - intros i j Hi Hj Hnot.
    assert (Hj' : j ∈ drop (Z.to_nat k) order).
    { assert (Hin : j ∈ take (Z.to_nat k) order ++ drop (Z.to_nat k) order).
      { rewrite Hperm. apply elem_of_seq. lia. }
      apply elem_of_app in Hin as [Hin|Hin]; [by destruct Hnot|done]. }
    rewrite take_idx_app in Hdesc.
    apply (StronglySorted_app_1_elem_of _ _ _
             (nth i (np.var_axis0 X) 0) (nth j (np.var_axis0 X) 0)) in Hdesc;
      [done| |].
    + by apply take_idx_elem.
    + by apply take_idx_elem.
  - intros Hv ->.
    unfold order. rewrite (argsort_10_1_100 _ _ Hv Hsort). done.
Qed.

Lemma get_top_features_k_highest_witness :
  np.is_argsort Qle 0 (np.var_axis0 scenario_matrix)
    (np_argsort (Library := sample_library) (np.var_axis0 scenario_matrix))
  ∧ Forall2 Qeq (np.var_axis0 scenario_matrix) [10; 1; 100]
  ∧ get_top_features (L := sample_library) scenario_matrix
      ["cpu"; "mem"; "net"] 2
    = Ok ["net"; "cpu"].
Proof.
  assert (Hsort : np.is_argsort Qle 0 (np.var_axis0 scenario_matrix)
                    (np_argsort (np.var_axis0 scenario_matrix))).
  { split; apply (bool_decide_unpack _); by vm_compute. }
  assert (Hv : Forall2 Qeq (np.var_axis0 scenario_matrix) [10; 1; 100]).
  { repeat constructor. }
  split; [exact Hsort|]. split; [exact Hv|].
  destruct (get_top_features_k_highest scenario_matrix ["cpu"; "mem"; "net"] 2
              ltac:(discriminate) ltac:(repeat constructor) eq_refl Hsort
              ltac:(by vm_compute))
    as (top & -> & _ & _ & _ & _ & _ & Htop).
  by rewrite (Htop Hv eq_refl).
Defined.

(** The claim of C6 fails on ties: two features of equal variance and
    [k = 1].  The sort leaves the two positions in place, the reversal
    puts the second first, and the second name is returned; original
    column order would return the first. *)
Lemma get_top_features_tie_prefers_later_column :
  Forall2 Qeq (np.var_axis0 tied_matrix) [1; 1]
  ∧ np_argsort (Library := sample_library) (np.var_axis0 tied_matrix)
    = [0; 1]%nat
  ∧ get_top_features (L := sample_library) tied_matrix ["a"; "b"] 1
    = Ok ["b"].
Proof.
  split; [repeat constructor|]. by vm_compute.
Qed.

(** ** Boolean masks *)

Lemma compress_length {A B} (m : list bool) (a : list A) (b : list B) :
  length a = length b → length (np.compress m a) = length (np.compress m b).
Proof.
  revert a b. induction m as [|c m IH]; intros [|x a] [|y b] H;
    simplify_eq/=; try done.
  destruct c; simpl; auto.
Qed.

Lemma compress_partition {A} (m : list bool) (a : list A) :
  length m = length a →
  np.compress (map negb m) a ++ np.compress m a ≡ₚ a.
Proof.
  revert a. induction m as [|c m IH]; intros [|x a] H; simplify_eq/=; [done|].
  destruct c; simpl.
  - rewrite <- Permutation_middle. by rewrite IH.
  - by rewrite IH.
Qed.

Lemma compress_lookup {A} (m : list bool) (pre items : list A) :
  length m = length items →
  Forall2 (λ i x, (pre ++ items) !! i = Some x)
    (np.compress m (seq (length pre) (length items))) (np.compress m items).
Proof.
  revert pre items. induction m as [|c m IH]; intros pre [|x items] H;
    simplify_eq/=; try constructor.
  assert (Hrec := IH (pre ++ [x]) items H).
  rewrite length_app, Nat.add_1_r, <- app_assoc in Hrec. simpl in Hrec.
  destruct c; [constructor|]; try done.
  by rewrite list_lookup_middle.
Qed.

Lemma compress_mask_true {A} (P : A → bool) (items : list A) :
  Forall (λ x, P x = true) (np.compress (map P items) items).
Proof.
  induction items as [|x items IH]; simpl; [constructor|].
  destruct (P x) eqn:E; [constructor|]; done.
Qed.

Lemma compress_mask_false {A} (P : A → bool) (items : list A) :
  Forall (λ x, P x = false) (np.compress (map negb (map P items)) items).
Proof.
  induction items as [|x items IH]; simpl; [constructor|].
  destruct (P x) eqn:E; simpl; [|constructor]; done.
Qed.

Lemma all_some_omap {A} (l : list (option A)) :
  Forall (λ o, bool_decide (o = None) = false) l → l = map Some (omap id l).
Proof.
  induction 1 as [|[a|] l H _ IH]; [done| |].
  - cbn. f_equal. exact IH.
  - by rewrite bool_decide_eq_false in H.
Qed.

(** ** [nargsort]: timestamps ascending, missing ones last *)

Section nargsort.
Context `{L : Library}.
Variable items : list (option Z).
Let mask := map (λ o : option Z, bool_decide (o = None)) items.
Let non_nans := omap id (np.compress (map negb mask) items).
Hypothesis Hsort :
  np.is_argsort Z.le 0%Z non_nans (np_argsort_datetime non_nans).

Lemma non_nans_spec : np.compress (map negb mask) items = map Some non_nans.
Proof using Type. apply all_some_omap, compress_mask_false. Qed.

Lemma non_nan_idx_length :
  length (np.compress (map negb mask) (seq 0 (length items))) = length non_nans.
Proof using Type.
  rewrite (compress_length _ _ items) by apply length_seq.
  by rewrite non_nans_spec, length_map.
Qed.

Lemma nargsort_perm : nargsort items ≡ₚ seq 0 (length items).
Proof using Hsort.
  unfold nargsort. fold mask. fold non_nans.
  destruct Hsort as [Hp _].
  rewrite take_idx_perm by (by rewrite non_nan_idx_length).
  apply compress_partition. unfold mask. by rewrite length_map, length_seq.
Qed.

Lemma nargsort_keys :
  np.take_idx None items (nargsort items)
  = map Some (np.take_idx 0%Z non_nans (np_argsort_datetime non_nans))
    ++ replicate (length (np.compress mask (seq 0 (length items)))) None.
Proof using Hsort.
  unfold nargsort. fold mask. fold non_nans.
  rewrite take_idx_app. f_equal.
  - destruct Hsort as [Hp _].
    pose proof (perm_range_bound _ _ Hp) as Hb.
    pose proof (compress_lookup (map negb mask) [] items
                  ltac:(unfold mask; by rewrite !length_map)) as Hl.
    simpl in Hl. rewrite non_nans_spec in Hl.
    unfold np.take_idx. rewrite !map_map.
    apply map_ext_Forall. eapply Forall_impl; [exact Hb|].
    intros j Hj. simpl in Hj.
    destruct (lookup_lt_is_Some_2 non_nans j Hj) as [z Hz].
    rewrite (nth_lookup_Some _ _ _ _ Hz).
    assert (Hz' : map Some non_nans !! j = Some (Some z)).
    { change (map ?f ?l) with (f <$> l). by rewrite list_lookup_fmap, Hz. }
    eapply Forall2_lookup_r in Hl as (i & Hi & Hitem); [|exact Hz'].
    rewrite (nth_lookup_Some _ _ _ _ Hi).
    by rewrite (nth_lookup_Some _ _ _ _ Hitem).
  - pose proof (compress_lookup mask [] items
                  ltac:(unfold mask; by rewrite length_map)) as Hl.
    simpl in Hl.
    pose proof (compress_mask_true (λ o : option Z, bool_decide (o = None)) items)
      as Ht. fold mask in Ht.
    apply map_constant. intros i Hi.
    apply list_elem_of_lookup in Hi as [j Hj].
    eapply Forall2_lookup_l in Hl as (x & Hx & Hitem); [|exact Hj].
    rewrite (nth_lookup_Some _ _ _ _ Hitem).
    apply list_elem_of_lookup_2 in Hx.
    rewrite Forall_forall in Ht. apply Ht in Hx.
    by apply bool_decide_eq_true in Hx.
Qed.

End nargsort.
(** ** Columns of a frame *)

Lemma assoc_set_same {V} (k : string) (v : V) (l : list (string * V)) :
  pd.assoc k (pd.assoc_set k v l) = Some v.
Proof.
  induction l as [|[k' v'] l IH]; simpl.
  - by rewrite String.eqb_refl.
  - destruct (String.eqb k' k) eqn:E; simpl.
    + by rewrite String.eqb_refl.
    + by rewrite E.
Qed.

Lemma assoc_set_other {V} (k k' : string) (v : V) (l : list (string * V)) :
  k ≠ k' → pd.assoc k' (pd.assoc_set k v l) = pd.assoc k' l.
Proof.
  intros Hne. induction l as [|[k0 v0] l IH]; simpl.
  - apply String.eqb_neq in Hne. by rewrite Hne.
  - destruct (String.eqb k0 k) eqn:E; simpl.
    + apply String.eqb_eq in E as ->.
      apply String.eqb_neq in Hne. by rewrite Hne.
    + by rewrite IH.
Qed.

Lemma assoc_map_columns (f : list pd.cell → list pd.cell) (n : nat)
    (df : pd.DataFrame) (k : string) :
  pd.assoc k (pd.columns (pd.map_columns f n df))
  = (λ s, pd.mkSeries (pd.dtype_of s) (f (pd.values s)))
      <$> pd.assoc k (pd.columns df).
Proof.
  unfold pd.map_columns. simpl.
  induction (pd.columns df) as [|[k' s] l IH]; simpl; [done|].
  by destruct (String.eqb k' k).
Qed.

Lemma column_values_map_columns (f : list pd.cell → list pd.cell) (n : nat)
    (df : pd.DataFrame) (k : string) :
  is_Some (pd.assoc k (pd.columns df)) →
  pd.column_values (pd.map_columns f n df) k = f (pd.column_values df k).
Proof.
  intros [s Hs]. unfold pd.column_values.
  by rewrite assoc_map_columns, Hs.
Qed.

(** ** The split index in binary64 *)

Section split_index.
Local Open Scope Z_scope.

Lemma round53_error (p : Z) :
  0 <= p → Z.abs (f64.round53 p - p) * 2 ^ 53 <= p.
Proof.
  intros Hp. unfold f64.round53.
  destruct (Z.leb_spec (Z.log2 p + 1) 53) as [Hb|Hb].
  { rewrite Z.sub_diag. simpl. lia. }
  assert (Hpos : 0 < p).
  { destruct (Z.eq_dec p 0) as [->|]; [simpl in Hb; lia|lia]. }
  set (s := Z.log2 p + 1 - 53) in *.
  assert (Hs : 1 <= s) by lia.
  pose proof (Z.log2_spec p Hpos) as [Hlo _].
  assert (Hpow : 2 ^ Z.log2 p = 2 ^ (s - 1) * 2 ^ 53).
  { rewrite <- Z.pow_add_r by lia. f_equal. lia. }
  assert (Hs2 : 2 ^ s = 2 * 2 ^ (s - 1)).
  { replace s with (1 + (s - 1)) at 1 by lia. rewrite Z.pow_add_r by lia. done. }
  assert (Hh : 0 < 2 ^ (s - 1)) by (apply Z.pow_pos_nonneg; lia).
  pose proof (Z.div_mod p (2 ^ s) ltac:(lia)) as Hdm.
  pose proof (Z.mod_pos_bound p (2 ^ s) ltac:(lia)) as Hr.
  set (q := p / 2 ^ s) in *. set (r := p mod 2 ^ s) in *.
  set (h := 2 ^ (s - 1)) in *.
  assert (Herr : Z.abs ((if (h <? r) || (r =? h) && Z.odd q then q + 1 else q)
                        * 2 ^ s - p) <= h).
  { destruct ((h <? r) || (r =? h) && Z.odd q) eqn:Eup.
    - assert (h <= r).
      { apply orb_true_iff in Eup as [E|E]; [lia|].
        apply andb_true_iff in E as [E _]. lia. }
      lia.
    - apply orb_false_iff in Eup as [E _]. lia. }
  nia.
Qed.

Lemma int_mul_0_7_bounds (n : Z) :
  0 <= n →
  0 <= f64.int_mul_0_7 n <= n
  ∧ (1 <= n → f64.int_mul_0_7 n < n)
  ∧ (f64.int_mul_0_7 n = 0 ↔ n <= 1).
Proof.
  intros Hn. unfold f64.int_mul_0_7, f64.mantissa_0_7.
  pose proof (round53_error n Hn) as H1.
  set (N := f64.round53 n) in *.
  assert (HN : 0 <= N) by (change (2 ^ 53) with 9007199254740992 in H1; lia).
  pose proof (round53_error (N * 6305039478318694) ltac:(lia)) as H2.
  set (R := f64.round53 (N * 6305039478318694)) in *.
  change (2 ^ 53) with 9007199254740992 in *.
  pose proof (Z.div_mod R 9007199254740992 ltac:(lia)) as Hdm.
  pose proof (Z.mod_pos_bound R 9007199254740992 ltac:(lia)) as Hr.
  set (k := R / 9007199254740992) in *.
  set (r := R mod 9007199254740992) in *.
  lia.
Qed.

Lemma int_mul_0_7_near_floor (n : Z) :
  0 <= n < 2 ^ 50 →
  7 * n / 10 - 1 <= f64.int_mul_0_7 n <= 7 * n / 10.
Proof.
  intros Hn. unfold f64.int_mul_0_7, f64.mantissa_0_7.
  pose proof (round53_error n ltac:(lia)) as H1.
  set (N := f64.round53 n) in *.
  change (2 ^ 50) with 1125899906842624 in *.
  change (2 ^ 53) with 9007199254740992 in *.
  assert (HN : N = n) by lia. rewrite HN in *. clear H1 HN N.
  pose proof (round53_error (n * 6305039478318694) ltac:(lia)) as H2.
  set (R := f64.round53 (n * 6305039478318694)) in *.
  change (2 ^ 53) with 9007199254740992 in *.
  pose proof (Z.div_mod R 9007199254740992 ltac:(lia)) as Hdm.
  pose proof (Z.mod_pos_bound R 9007199254740992 ltac:(lia)) as Hr.
  set (k := R / 9007199254740992) in *.
  set (r := R mod 9007199254740992) in *.
  pose proof (Z.div_mod (7 * n) 10 ltac:(lia)) as Hdm'.
  pose proof (Z.mod_pos_bound (7 * n) 10 ltac:(lia)) as Hr'.
  set (m := 7 * n / 10) in *. set (j := (7 * n) mod 10) in *.
  lia.
Qed.

(** [int(90 * 0.7)] is 62: the product is the binary64 value just below
    63. *)
Example int_mul_0_7_examples :
  map f64.int_mul_0_7 [0; 1; 2; 3; 10; 90; 100] = [0; 0; 1; 2; 7; 62; 70]
  ∧ 7 * 90 / 10 = 63.
Proof. split; reflexivity. Qed.

End split_index.

(** ** Sorting by the timestamp column *)

Lemma timestamps_roundtrip (ts : list (option Z)) :
  map pd.to_timestamp (map pd.of_timestamp ts) = ts.
Proof.
  rewrite map_map.
  rewrite <- (map_id ts) at 2. apply map_ext. by intros [z|].
Qed.

Lemma take_idx_cells (ts : list (option Z)) (idx : list nat) :
  Forall (λ i, (i < length ts)%nat) idx →
  np.take_idx pd.NaN (map pd.of_timestamp ts) idx
  = map pd.of_timestamp (np.take_idx None ts idx).
Proof.
  intros Hb. unfold np.take_idx. rewrite map_map.
  apply map_ext_Forall. eapply Forall_impl; [exact Hb|].
  intros i Hi. simpl in *.
  destruct (lookup_lt_is_Some_2 ts i Hi) as [o Ho].
  rewrite (nth_lookup_Some _ _ _ _ Ho).
  apply nth_lookup_Some.
  change (map ?f ?l) with (f <$> l). by rewrite list_lookup_fmap, Ho.
Qed.

Lemma sorted_timestamps (zs : list Z) (m : nat) :
  Sorted Z.le zs →
  StronglySorted ts_le
    (map pd.of_timestamp (map Some zs ++ replicate m None)).
Proof.
  intros Hs. rewrite map_app, map_map.
  apply StronglySorted_app_2.
  - intros a b _ Hb. apply list_elem_of_In, in_map_iff in Hb as (o & <- & Ho).
    apply list_elem_of_In, elem_of_replicate in Ho as [-> _].
    by destruct a.
  - apply (StronglySorted_fmap (λ z, pd.Ts z) Z.le ts_le); [done|].
    apply Sorted_StronglySorted; [|done]. intros x y z. apply Z.le_trans.
  - induction m as [|m IH]; simpl; constructor; [done|].
    apply Forall_forall. intros c Hc.
    apply list_elem_of_In, in_map_iff in Hc as (o & <- & Ho).
    by apply list_elem_of_In, elem_of_replicate in Ho as [-> _].
Qed.

Lemma compress_omap (items : list (option Z)) :
  omap id (np.compress
             (map negb (map (λ o : option Z, bool_decide (o = None)) items))
             items)
  = omap id items.
Proof.
  induction items as [|[z|] items IH]; [done|cbn|cbn]; by rewrite IH.
Qed.

Lemma temporal_split_eval `{L : Library} (df_raw : pd.DataFrame)
    (time_col : string) (col : pd.Series) (ts : list (option Z)) :
  pd.assoc time_col (pd.columns df_raw) = Some col →
  to_datetime (pd.values col) = Some ts →
  length ts = pd.nrows df_raw →
  temporal_split df_raw time_col
  = let parsed :=
      pd.mkFrame (pd.nrows df_raw)
        (pd.assoc_set time_col (pd.of_timestamps ts) (pd.columns df_raw)) in
    let sorted := pd.take_rows (nargsort ts) parsed in
    let split_idx :=
      Z.to_nat (f64.int_mul_0_7 (Z.of_nat (pd.nrows sorted))) in
    Ok (pd.iloc_to split_idx sorted, pd.iloc_from split_idx sorted).
Proof.
  intros Hcol Hts Hlen.
  unfold temporal_split, pd.getitem. rewrite Hcol. cbn. rewrite Hts. cbn.
  unfold pd.setitem. cbn. rewrite length_map, Hlen, Nat.eqb_refl. cbn.
  unfold sort_values, pd.getitem. cbn. rewrite assoc_set_same. cbn.
  rewrite (timestamps_roundtrip ts). done.
Qed.

Lemma take_rows_nrows (idx : list nat) (df : pd.DataFrame) :
  pd.nrows (pd.take_rows idx df) = length idx.
Proof. reflexivity. Qed.

(** C4, as the code has it.  The split fraction is the constant 0.7 of
    the source, not an input.  When the timestamp column exists and
    parses, the frame is reordered by a permutation [indexer] of its rows
    along which the timestamps ascend (missing ones last); with
    [k = int(n * 0.7)] in binary64 arithmetic, rows [0, k) of the
    reordered frame are the training partition and rows [k, n) the test
    partition, their sizes add up to [n], and no training timestamp
    exceeds a test timestamp.  [k] is at most [n], and below [2^50]
    records it is [floor(7 n / 10)] or one less.  The order of rows with
    equal timestamps is the one the default sort of [sort_values] leaves,
    which pandas does not promise to be the original one. *)
Theorem temporal_split_sorted_70_30 `{L : Library} (df_raw : pd.DataFrame)
    (time_col : string) (col : pd.Series) (ts : list (option Z)) :
  pd.assoc time_col (pd.columns df_raw) = Some col →
  to_datetime (pd.values col) = Some ts →
  length ts = pd.nrows df_raw →
  np.is_argsort Z.le 0%Z (omap id ts) (np_argsort_datetime (omap id ts)) →
  let n := pd.nrows df_raw in
  let k := Z.to_nat (f64.int_mul_0_7 (Z.of_nat n)) in
  let parsed :=
    pd.mkFrame n
      (pd.assoc_set time_col (pd.of_timestamps ts) (pd.columns df_raw)) in
  ∃ indexer train test,
    temporal_split df_raw time_col = Ok (train, test)
    ∧ indexer ≡ₚ seq 0 n
    ∧ StronglySorted ts_le
        (pd.column_values (pd.take_rows indexer parsed) time_col)
    ∧ train = pd.iloc_to k (pd.take_rows indexer parsed)
    ∧ test = pd.iloc_from k (pd.take_rows indexer parsed)
    ∧ (pd.nrows train + pd.nrows test = n)%nat
    ∧ (∀ a b, a ∈ pd.column_values train time_col →
              b ∈ pd.column_values test time_col → ts_le a b)
    ∧ (pd.nrows train = k ∧ k ≤ n)%nat
    ∧ (Z.of_nat n < 2 ^ 50 →
       7 * Z.of_nat n / 10 - 1 <= Z.of_nat k <= 7 * Z.of_nat n / 10)%Z.
Proof.
  intros Hcol Hts Hlen Hsort n k parsed.
  pose proof (int_mul_0_7_bounds (Z.of_nat n) ltac:(lia)) as (Hk & _ & _).
  assert (Hkn : (k ≤ n)%nat) by (unfold k; lia).
  rewrite <- compress_omap in Hsort.
  pose proof (nargsort_perm ts Hsort) as Hperm. rewrite Hlen in Hperm.
  pose proof (nargsort_keys ts Hsort) as Hkeys.
  assert (Hn : length (nargsort ts) = n) by (rewrite Hperm; apply length_seq).
  assert (Hsome : is_Some (pd.assoc time_col (pd.columns parsed))).
  { exists (pd.of_timestamps ts). apply assoc_set_same. }
  assert (Hcv : pd.column_values (pd.take_rows (nargsort ts) parsed) time_col
                = map pd.of_timestamp (np.take_idx None ts (nargsort ts))).
  { unfold pd.take_rows. rewrite column_values_map_columns by done.
    unfold pd.column_values. simpl. rewrite assoc_set_same. simpl.
    apply take_idx_cells. rewrite Hlen. by apply perm_range_bound. }
  assert (Hss : StronglySorted ts_le
                  (pd.column_values (pd.take_rows (nargsort ts) parsed) time_col)).
  { rewrite Hcv, Hkeys. apply sorted_timestamps. by destruct Hsort. }
  exists (nargsort ts), (pd.iloc_to k (pd.take_rows (nargsort ts) parsed)),
    (pd.iloc_from k (pd.take_rows (nargsort ts) parsed)).
  split.
  { rewrite (temporal_split_eval df_raw time_col col ts Hcol Hts Hlen).
    cbn zeta. rewrite take_rows_nrows, Hn. reflexivity. }
  split; [done|]. split; [done|]. split; [done|]. split; [done|]. split.
  { cbn. rewrite Hn. lia. }
  split; [|split].
  - intros a b Ha Hb.
    assert (Hsome' : is_Some (pd.assoc time_col
                       (pd.columns (pd.take_rows (nargsort ts) parsed)))).
    { unfold pd.take_rows. rewrite assoc_map_columns.
      destruct Hsome as [s ->]. by eexists. }
    unfold pd.iloc_to in Ha. unfold pd.iloc_from in Hb.
    rewrite column_values_map_columns in Ha, Hb by done.
    rewrite <- (take_drop k) in Hss.
    by eapply StronglySorted_app_1_elem_of.
  - split; [|done]. cbn. rewrite Hn. lia.
  - intros Hbig.
    pose proof (int_mul_0_7_near_floor (Z.of_nat n) ltac:(lia)) as Hnear.
    unfold k. lia.
Qed.

Lemma temporal_split_sorted_70_30_witness :
  to_datetime (Library := sample_library)
    [pd.Num 3; pd.Num 1; pd.Num 4; pd.Num 2]
  = Some [Some 3; Some 1; Some 4; Some 2]%Z
  ∧ ∃ train test,
      temporal_split (L := sample_library) sample_frame "Time"
      = Ok (train, test)
      ∧ (pd.nrows train + pd.nrows test = 4)%nat
      ∧ (∀ a b, a ∈ pd.column_values train "Time" →
                b ∈ pd.column_values test "Time" → ts_le a b).
Proof.
  assert (Hts : to_datetime (Library := sample_library)
                  [pd.Num 3; pd.Num 1; pd.Num 4; pd.Num 2]
                = Some [Some 3; Some 1; Some 4; Some 2]%Z) by reflexivity.
  split; [exact Hts|].
  destruct (temporal_split_sorted_70_30 (L := sample_library) sample_frame
              "Time" _ _ eq_refl Hts eq_refl)
    as (indexer & train & test & Hrun & _ & _ & _ & _ & Hrows & Hle & _).
  { split; apply (bool_decide_unpack _); by vm_compute. }
  exists train, test. split; [exact Hrun|]. split; [exact Hrows|exact Hle].
Defined.

(** The claim of C4 fails where it lets the split fraction vary and
    where it reads [floor(n * f)] over the reals: ten records split 7 to
    3 whatever fraction is asked for (a fraction of one half would put 5
    in training), and ninety records put 62 in training although
    [floor(90 * 7 / 10)] is 63, because [90 * 0.7] is just below 63 in
    binary64. *)
Lemma temporal_split_fixed_binary64_fraction :
  (∃ train test,
     temporal_split (L := sample_library) ten_rows "Time" = Ok (train, test)
     ∧ pd.nrows train = 7%nat
     ∧ pd.nrows train ≠ Z.to_nat (Qfloor (10 * 0.5)))
  ∧ (∃ train test,
       temporal_split (L := sample_library) ninety_rows "Time"
       = Ok (train, test)
       ∧ pd.nrows train = 62%nat
       ∧ pd.nrows train ≠ Z.to_nat (Qfloor (90 * (7 # 10)))).
Proof.
  split.
  - eexists _, _. split; [by vm_compute|]. split; [reflexivity|]. by vm_compute.
  - eexists _, _. split; [by vm_compute|]. split; [reflexivity|]. by vm_compute.
Qed.

(** C5, as the code has it.  The splitter has no emptiness check:
    neither it nor any later stage of the run raises
    [InsufficientDataError].  Whenever the timestamp column exists and
    parses, the splitter returns both partitions, also when one is empty:
    the training partition is empty exactly when there is at most one
    record, the test partition exactly when there is none. *)
Theorem temporal_split_never_insufficient_data `{L : Library}
    (df_raw : pd.DataFrame) (time_col : string) :
  temporal_split df_raw time_col ≠ Raise InsufficientDataError
  ∧ run_anomaly_pipeline df_raw time_col ≠ Raise InsufficientDataError
  ∧ (∀ col ts,
       pd.assoc time_col (pd.columns df_raw) = Some col →
       to_datetime (pd.values col) = Some ts →
       length ts = pd.nrows df_raw →
       np.is_argsort Z.le 0%Z (omap id ts) (np_argsort_datetime (omap id ts)) →
       ∃ train test,
         temporal_split df_raw time_col = Ok (train, test)
         ∧ (pd.nrows train = 0 ↔ pd.nrows df_raw ≤ 1)%nat
         ∧ (pd.nrows test = 0 ↔ pd.nrows df_raw = 0)%nat).
Proof.
  split; [|split].
  - intros E. apply rop_temporal_split in E.
    destruct E as [E|[E|E]]; discriminate E.
  - intros E. apply rop_run_anomaly_pipeline in E.
    destruct E as [E|[E|E]]; discriminate E.
  - intros col ts Hcol Hts Hlen Hsort.
    rewrite <- compress_omap in Hsort.
    pose proof (nargsort_perm ts Hsort) as Hperm.
    apply Permutation_length in Hperm. rewrite length_seq, Hlen in Hperm.
    pose proof (int_mul_0_7_bounds (Z.of_nat (pd.nrows df_raw)) ltac:(lia))
      as (Hk & Hlt & Hzero).
    eexists _, _. split.
    { apply (temporal_split_eval df_raw time_col col ts Hcol Hts Hlen). }
    cbn. rewrite Hperm. split; lia.
Qed.

(** The claim of C5 fails on a single record: [int(1 * 0.7)] is 0, the
    splitter returns an empty training partition beside the one-record
    test partition, the run goes on to the scaler, and what ends it there
    (with the estimators of [sample_library], which reject an empty
    matrix as scikit-learn does) is a [ValueError]. *)
Lemma temporal_split_returns_empty_partition :
  (∃ train test,
     temporal_split (L := sample_library) one_row "Time" = Ok (train, test)
     ∧ pd.nrows train = 0%nat ∧ pd.nrows test = 1%nat)
  ∧ run_anomaly_pipeline (L := sample_library) one_row "Time"
    = Raise ValueError.
Proof.
  split; [|by vm_compute].
  eexists _, _. split; [by vm_compute|]. split; reflexivity.
Qed.

(** ** [validate_and_prepare]: imputation by the partition's own mean *)

Lemma assoc_filter {V} (P : string * V → Prop) `{∀ c, Decision (P c)}
    (k : string) (v : V) (l : list (string * V)) :
  pd.assoc k l = Some v → P (k, v) → pd.assoc k (filter P l) = Some v.
Proof.
  intros Hl HP. induction l as [|[k' v'] l IH]; simpl in *; [done|].
  destruct (String.eqb k' k) eqn:E.
  - apply String.eqb_eq in E as ->. simplify_eq.
    rewrite filter_cons_True by done. simpl. by rewrite String.eqb_refl.
  - destruct (decide (P (k', v'))).
    + rewrite filter_cons_True by done. simpl. rewrite E. by apply IH.
    + rewrite filter_cons_False by done. by apply IH.
Qed.


Lemma fill_lookup_present (m : pd.cell) (v : list pd.cell) (i : nat) (c : pd.cell) :
  v !! i = Some c → pd.isna c = false → pd.fill m v !! i = Some c.
Proof.
  intros Hi Hna. unfold pd.fill.
  change (map ?f ?l) with (f <$> l). by rewrite list_lookup_fmap, Hi; simpl; rewrite Hna.
Qed.

Lemma validate_and_prepare_column (part : pd.DataFrame) (name : string)
    (s : pd.Series) :
  pd.assoc name (pd.columns part) = Some s →
  pd.dtype_of s = pd.number →
  pd.column_values (validate_and_prepare part) name
  = pd.fill (pd.mean (pd.values s)) (pd.values s).
Proof.
  intros Hs Hnum. unfold validate_and_prepare, pd.fillna_mean.
  assert (Hsel : pd.assoc name (pd.columns (pd.select_number part)) = Some s).
  { unfold pd.select_number. simpl.
    by apply (assoc_filter (λ c, pd.dtype_of c.2 = pd.number)). }
  rewrite column_values_map_columns by (by eexists).
  unfold pd.column_values. by rewrite Hsel.
Qed.



(** On the sample data the training readings are 10 and 20 and the test
    readings 30 and a missing one: the missing test reading becomes 30,
    the mean of the test partition, not 15 or 20. *)
Example clean_partitions_sample :
  ∃ df_train df_test,
    temporal_split (L := sample_library) sample_frame "Time"
    = Ok (df_train, df_test)
    ∧ pd.column_values df_train "load" = [pd.Num 10; pd.Num 20]
    ∧ pd.column_values df_test "load" = [pd.Num 30; pd.NaN]
    ∧ pd.column_values (clean_partitions df_train df_test).1.2 "load"
      = [pd.Num 30; pd.Num 30].
Proof.
  eexists _, _. split; [by vm_compute|]. by vm_compute.
Qed.

(** ** Column names written by the output stage *)

Lemma string_length_app (s t : string) :
  String.length (s +:+ t) = (String.length s + String.length t)%nat.
Proof. induction s as [|c s IH]; simpl; [done|]. by rewrite IH. Qed.

Lemma string_app_inj_r (s1 s2 t : string) : s1 +:+ t = s2 +:+ t → s1 = s2.
Proof.
  revert s2. induction s1 as [|c s1 IH]; intros [|c' s2] E.
  - done.
  - apply (f_equal String.length) in E.
    change (String.length t = S (String.length (s2 +:+ t))) in E.
    rewrite string_length_app in E. lia.
  - apply (f_equal String.length) in E.
    change (S (String.length (s1 +:+ t)) = String.length t) in E.
    rewrite string_length_app in E. lia.
  - injection E as -> E. f_equal. by apply IH.
Qed.

Ltac peel_copy f E :=
  repeat (destruct f as [|? f]; simpl in E;
          [discriminate E|injection E as _ E]);
  destruct f; discriminate E.

Lemma score_column_not_copy (f name : string) :
  name ∈ score_columns → f +:+ "_copy" ≠ name.
Proof.
  intros Hin E. unfold score_columns in Hin.
  repeat (apply elem_of_cons in Hin as [-> | Hin]);
    [peel_copy f E..|by apply elem_of_nil in Hin].
Qed.

(** ** The output frame *)

Lemma setitem_ok (df out : pd.DataFrame) (col : string) (s : pd.Series) :
  pd.setitem df col s = Ok out →
  length (pd.values s) = pd.nrows df
  ∧ out = pd.mkFrame (pd.nrows df) (pd.assoc_set col s (pd.columns df)).
Proof.
  unfold pd.setitem. destruct (_ =? _)%nat eqn:E; [|done].
  intros [= <-]. by apply Nat.eqb_eq in E.
Qed.

Lemma contains_true (df : pd.DataFrame) (col : string) :
  pd.contains df col = true ↔ is_Some (pd.assoc col (pd.columns df)).
Proof. unfold pd.contains. apply bool_decide_eq_true. Qed.

Lemma foldl_add_copy_raise (df_test : pd.DataFrame) (e : exn)
    (top : list string) :
  foldl (add_copy df_test) (Raise e) top = Raise e.
Proof. induction top as [|f top IH]; simpl; [done|]. exact IH. Qed.

Lemma add_copy_ok (df_test o o' : pd.DataFrame) (f : string) :
  add_copy df_test (Ok o) f = Ok o' →
  pd.nrows o' = pd.nrows o
  ∧ match pd.assoc f (pd.columns df_test) with
    | Some s => pd.columns o' = pd.assoc_set (f +:+ "_copy") s (pd.columns o)
                ∧ length (pd.values s) = pd.nrows o
    | None => o' = o
    end.
Proof.
  unfold add_copy. cbn.
  destruct (pd.contains df_test f) eqn:Hc.
  - apply contains_true in Hc as [s Hs]. unfold pd.getitem. rewrite Hs. cbn.
    intros H. apply setitem_ok in H as [Hlen ->]. done.
  - intros [= <-]. split; [done|].
    destruct (pd.assoc f (pd.columns df_test)) eqn:Hs; [|done].
    assert (pd.contains df_test f = true) by (apply contains_true; by eexists).
    congruence.
Qed.

Lemma foldl_add_copy_ok (df_test : pd.DataFrame) (top : list string)
    (o out : pd.DataFrame) :
  foldl (add_copy df_test) (Ok o) top = Ok out →
  pd.nrows out = pd.nrows o
  ∧ (∀ name, name ∉ copy_columns df_test top →
       pd.assoc name (pd.columns out) = pd.assoc name (pd.columns o))
  ∧ (∀ f s, pd.assoc f (pd.columns df_test) = Some s →
       f ∈ top ∨ pd.assoc (f +:+ "_copy") (pd.columns o) = Some s →
       pd.assoc (f +:+ "_copy") (pd.columns out) = Some s).
Proof.
  revert o. induction top as [|g top IH]; intros o Hrun; cbn [foldl] in Hrun.
  { injection Hrun as <-. split; [done|]. split; [done|].
    intros f s _ [Hin|Ho]; [by apply elem_of_nil in Hin|done]. }
  destruct (add_copy df_test (Ok o) g) as [o'|e] eqn:Hstep;
    [|by rewrite foldl_add_copy_raise in Hrun].
  apply add_copy_ok in Hstep as [Hn Hcols].
  destruct (IH o' Hrun) as (IHn & IHother & IHcopy).
  split; [congruence|]. split.
  - intros name Hname. rewrite IHother.
    + destruct (pd.assoc g (pd.columns df_test)) as [s|] eqn:Hg;
        [|by subst o'].
      destruct Hcols as [-> _]. apply assoc_set_other. intros <-.
      apply Hname. unfold copy_columns. simpl.
      rewrite filter_cons_True; [left|].
      apply contains_true. by eexists.
    + intros Hin. apply Hname. unfold copy_columns in *. simpl.
      destruct (decide (pd.contains df_test g = true)).
      * rewrite filter_cons_True by done. by right.
      * by rewrite filter_cons_False.
  - intros f s Hf Hor. apply (IHcopy f s Hf).
    destruct (decide (f = g)) as [->|Hne].
    + right. rewrite Hf in Hcols. destruct Hcols as [-> _].
      apply assoc_set_same.
    + destruct Hor as [Hin|Ho].
      * left. apply elem_of_cons in Hin as [?|?]; [done|done].
      * right. destruct (pd.assoc g (pd.columns df_test)) as [s'|] eqn:Hg;
          [|by subst o'].
        destruct Hcols as [-> _]. rewrite assoc_set_other; [done|].
        intros E. apply string_app_inj_r in E. congruence.
Qed.

Lemma bind_ok {A B} (r : result A) (k : A → result B) (b : B) :
  r ≫= k = Ok b → ∃ a, r = Ok a ∧ k a = Ok b.
Proof. destruct r as [a|e]; [by exists a|done]. Qed.

Lemma getitem_ok {V} (d : gmap string V) (k : string) (v : V) :
  getitem d k = Ok v → d !! k = Some v.
Proof. unfold getitem. destruct (d !! k); naive_solver. Qed.

Lemma assemble_output_ok (df_test : pd.DataFrame) (ens : list Q)
    (raw_scores : gmap string (list Q)) (top_features : list string)
    (out : pd.DataFrame) :
  assemble_output df_test ens raw_scores top_features = Ok out →
  ∃ s_if s_pca s_svm,
    holds raw_scores s_if s_pca s_svm
    ∧ pd.nrows out = pd.nrows df_test
    ∧ (length ens = pd.nrows df_test ∧ length s_if = pd.nrows df_test
       ∧ length s_pca = pd.nrows df_test ∧ length s_svm = pd.nrows df_test)
    ∧ (∀ name, name ∉ score_columns ++ copy_columns df_test top_features →
         pd.assoc name (pd.columns out) = pd.assoc name (pd.columns df_test))
    ∧ pd.assoc "abnormality_score" (pd.columns out) = Some (pd.of_array ens)
    ∧ pd.assoc "IF_score" (pd.columns out) = Some (pd.of_array s_if)
    ∧ pd.assoc "PCA_score" (pd.columns out) = Some (pd.of_array s_pca)
    ∧ pd.assoc "SVM_score" (pd.columns out) = Some (pd.of_array s_svm)
    ∧ (∀ f s, f ∈ top_features →
         pd.assoc f (pd.columns df_test) = Some s →
         pd.assoc (f +:+ "_copy") (pd.columns out) = Some s).
Proof.
  unfold assemble_output, add_score_columns, add_feature_copies. intros H.
  apply bind_ok in H as (o4 & H4 & H).
  apply bind_ok in H4 as (o1 & H1 & H4).
  apply bind_ok in H4 as (s_if & Hif & H4).
  apply bind_ok in H4 as (o2 & H2 & H4).
  apply bind_ok in H4 as (s_pca & Hpca & H4).
  apply bind_ok in H4 as (o3 & H3 & H4).
  apply bind_ok in H4 as (s_svm & Hsvm & H4).
  apply setitem_ok in H1 as [L1 ->]. apply setitem_ok in H2 as [L2 ->].
  apply setitem_ok in H3 as [L3 ->]. apply setitem_ok in H4 as [L4 ->].
  apply getitem_ok in Hif, Hpca, Hsvm.
  apply foldl_add_copy_ok in H as (Hn & Hother & Hcopy).
  cbn [pd.nrows pd.columns] in *.
  assert (Hscore : ∀ name, name ∈ score_columns →
            pd.assoc name (pd.columns out)
            = pd.assoc name
                (pd.assoc_set "SVM_score" (pd.of_array s_svm)
                   (pd.assoc_set "PCA_score" (pd.of_array s_pca)
                      (pd.assoc_set "IF_score" (pd.of_array s_if)
                         (pd.assoc_set "abnormality_score" (pd.of_array ens)
                            (pd.columns df_test)))))).
  { intros name Hname. apply Hother. unfold copy_columns.
    intros Hin. apply list_elem_of_In, in_map_iff in Hin as (f & Hf & _).
    by apply (score_column_not_copy f name). }
  exists s_if, s_pca, s_svm.
  split; [done|]. split; [done|]. split.
  { unfold pd.of_array in L1, L2, L3, L4. simpl in L1, L2, L3, L4.
    by rewrite length_map in L1, L2, L3, L4. }
  split; [|split; [|split; [|split; [|split]]]].
  - intros name Hname. rewrite Hother.
    + rewrite !assoc_set_other; [done|..]; intros <-; apply Hname;
        apply elem_of_app; left; unfold score_columns; set_solver.
    + intros Hin. apply Hname. apply elem_of_app. by right.
  - rewrite Hscore by (unfold score_columns; set_solver).
    rewrite !assoc_set_other by done. apply assoc_set_same.
  - rewrite Hscore by (unfold score_columns; set_solver).
    rewrite !assoc_set_other by done. apply assoc_set_same.
  - rewrite Hscore by (unfold score_columns; set_solver).
    rewrite !assoc_set_other by done. apply assoc_set_same.
  - rewrite Hscore by (unfold score_columns; set_solver).
    apply assoc_set_same.
  - intros f s Hin Hs. apply (Hcopy f s Hs). by left.
Qed.

Lemma assoc_is_Some {V} (k : string) (l : list (string * V)) :
  is_Some (pd.assoc k l) ↔ k ∈ l.*1.
Proof.
  induction l as [|[k' v] l IH]; simpl.
  - split; [by intros [? ?]|by intros ?%elem_of_nil].
  - destruct (String.eqb k' k) eqn:E.
    + apply String.eqb_eq in E as ->. split; [left|by eexists].
    + apply String.eqb_neq in E. rewrite IH, elem_of_cons.
      split; [by right|]. by intros [?|?].
Qed.

Lemma map_columns_names (f : list pd.cell → list pd.cell) (n : nat)
    (df : pd.DataFrame) :
  (pd.columns (pd.map_columns f n df)).*1 = (pd.columns df).*1.
Proof.
  unfold pd.map_columns. simpl.
  induction (pd.columns df) as [|[k s] l IH]; [done|].
  cbn. f_equal. exact IH.
Qed.

Lemma validate_and_prepare_names (df : pd.DataFrame) (name : string) :
  name ∈ (pd.columns (validate_and_prepare df)).*1 → name ∈ (pd.columns df).*1.
Proof.
  unfold validate_and_prepare, pd.fillna_mean. rewrite map_columns_names.
  unfold pd.select_number. simpl.
  intros Hin. apply list_elem_of_fmap in Hin as (c & -> & Hc).
  apply list_elem_of_filter in Hc as [_ Hc]. by apply list_elem_of_fmap_2.
Qed.

Lemma map_result_getitem_elem {A} (l : list A) (idx : list nat) (out : list A) :
  map_result (list_getitem l) idx = Ok out → Forall (λ a, a ∈ l) out.
Proof.
  revert out. induction idx as [|i idx IH]; intros out H; simpl in H.
  - injection H as <-. constructor.
  - apply bind_ok in H as (a & Ha & H). apply bind_ok in H as (rest & Hrest & H).
    injection H as <-. constructor; [|by apply IH].
    unfold list_getitem in Ha. destruct (l !! i) eqn:E; [|done].
    injection Ha as <-. by eapply list_elem_of_lookup_2.
Qed.

Section output.
Context `{L : Library}.

Lemma temporal_split_ok (df_raw : pd.DataFrame) (time_col : string)
    (df_train df_test : pd.DataFrame) :
  temporal_split df_raw time_col = Ok (df_train, df_test) →
  ∃ sorted k, df_train = pd.iloc_to k sorted ∧ df_test = pd.iloc_from k sorted.
Proof.
  unfold temporal_split. intros H.
  apply bind_ok in H as (col & _ & H). apply bind_ok in H as (ts & _ & H).
  apply bind_ok in H as (df1 & _ & H). apply bind_ok in H as (df2 & _ & H).
  injection H as <- <-. by eexists _, _.
Qed.

Lemma get_top_features_names (X : list (list Q)) (names : list string)
    (k : Z) (top : list string) :
  get_top_features X names k = Ok top → Forall (λ f, f ∈ names) top.
Proof. unfold get_top_features. apply map_result_getitem_elem. Qed.

(** C9, as the code has it.  A run that returns has split the data,
    scored the test partition and ranked the training features, and its
    output frame has one row per test record, in the order of the test
    partition.  Every column of the test partition is in the output
    unchanged unless its name is one the output stage writes
    ([abnormality_score], [IF_score], [PCA_score], [SVM_score] or a ranked
    feature's name followed by [_copy]); the column [abnormality_score]
    holds the composite scores, the three score columns hold the raw
    scores, and for each ranked feature the column [<feature>_copy] holds
    that feature's column of the test partition as it was read. *)
Theorem run_anomaly_pipeline_output (df_raw : pd.DataFrame)
    (time_col : string) (out : pd.DataFrame) :
  run_anomaly_pipeline df_raw time_col = Ok out →
  ∃ df_train df_test X_train X_test scaler models raw_scores ens top_features
    s_if s_pca s_svm,
    temporal_split df_raw time_col = Ok (df_train, df_test)
    ∧ scale_data (validate_and_prepare df_train) (validate_and_prepare df_test)
      = Ok (X_train, X_test, scaler)
    ∧ fit_models X_train = Ok models
    ∧ score_models models X_test = Ok raw_scores
    ∧ holds raw_scores s_if s_pca s_svm
    ∧ ensemble_score raw_scores default_weights = Ok ens
    ∧ get_top_features X_train
        (pd.columns (validate_and_prepare df_train)).*1 7
      = Ok top_features
    ∧ pd.nrows out = pd.nrows df_test
    ∧ (length ens = pd.nrows df_test ∧ length s_if = pd.nrows df_test
       ∧ length s_pca = pd.nrows df_test ∧ length s_svm = pd.nrows df_test)
    ∧ (∀ name, name ∉ score_columns ++ copy_columns df_test top_features →
         pd.assoc name (pd.columns out) = pd.assoc name (pd.columns df_test))
    ∧ pd.assoc "abnormality_score" (pd.columns out) = Some (pd.of_array ens)
    ∧ pd.assoc "IF_score" (pd.columns out) = Some (pd.of_array s_if)
    ∧ pd.assoc "PCA_score" (pd.columns out) = Some (pd.of_array s_pca)
    ∧ pd.assoc "SVM_score" (pd.columns out) = Some (pd.of_array s_svm)
    ∧ (∀ f, f ∈ top_features →
         ∃ s, pd.assoc f (pd.columns df_test) = Some s
              ∧ pd.assoc (f +:+ "_copy") (pd.columns out) = Some s).
Proof.
  unfold run_anomaly_pipeline, clean_partitions. intros H.
  apply bind_ok in H as ([df_train df_test] & Hsplit & H). cbn zeta beta iota in H.
  apply bind_ok in H as ([[X_train X_test] scaler] & Hscale & H).
  apply bind_ok in H as (models & Hfit & H).
  apply bind_ok in H as (raw_scores & Hscore & H).
  apply bind_ok in H as (ens & Hens & H).
  apply bind_ok in H as (output_df & Hscores & H).
  apply bind_ok in H as (top_features & Htop & H).
  assert (Hout : assemble_output df_test ens raw_scores top_features = Ok out)
    by (unfold assemble_output; by rewrite Hscores).
  clear H Hscores. rename Hout into H.
  apply assemble_output_ok in H
    as (s_if & s_pca & s_svm & Hraw & Hn & Hlen & Hother & Ha & Hi & Hp & Hs & Hcopy).
  exists df_train, df_test, X_train, X_test, scaler, models, raw_scores, ens,
    top_features, s_if, s_pca, s_svm.
  repeat (split; [done|]).
  intros f Hf.
  apply get_top_features_names in Htop. rewrite Forall_forall in Htop.
  pose proof (Htop f Hf) as Hin. apply validate_and_prepare_names in Hin.
  apply temporal_split_ok in Hsplit as (sorted & k & -> & ->).
  unfold pd.iloc_to in Hin. rewrite map_columns_names in Hin.
  assert (Hsome : is_Some (pd.assoc f (pd.columns (pd.iloc_from k sorted)))).
  { apply assoc_is_Some. unfold pd.iloc_from. by rewrite map_columns_names. }
  destruct Hsome as [s Hs']. exists s. split; [done|]. by apply Hcopy.
Qed.

End output.

Lemma run_anomaly_pipeline_output_witness :
  ∃ out df_train df_test,
    run_anomaly_pipeline (L := sample_library) sample_frame "Time" = Ok out
    ∧ temporal_split (L := sample_library) sample_frame "Time"
      = Ok (df_train, df_test)
    ∧ pd.nrows out = pd.nrows df_test
    ∧ (∀ name, name ∈ ["Time"; "load"; "host"; "temp"] →
         pd.assoc name (pd.columns out) = pd.assoc name (pd.columns df_test)).
Proof.
  assert (E : ∃ out,
            run_anomaly_pipeline (L := sample_library) sample_frame "Time"
            = Ok out).
  { vm_compute. eexists. reflexivity. }
  destruct E as [out E].
  destruct (run_anomaly_pipeline_output (L := sample_library) _ _ _ E)
    as (df_train & df_test & X_train & X_test & scaler & models & raw_scores
        & ens & top_features & s_if & s_pca & s_svm & Hsplit & _ & _ & _ & _
        & _ & Htop & Hn & _ & Hother & _).
  exists out, df_train, df_test.
  split; [exact E|]. split; [exact Hsplit|]. split; [exact Hn|].
  intros name Hname. apply Hother. intros Hin.
  apply elem_of_app in Hin as [Hin|Hin].
  - unfold score_columns in Hin.
    repeat (apply elem_of_cons in Hname as [-> | Hname]);
      [| | | |by apply elem_of_nil in Hname];
      repeat (apply elem_of_cons in Hin as [Hin | Hin]; [discriminate Hin|]);
      by apply elem_of_nil in Hin.
  - unfold copy_columns in Hin.
    apply list_elem_of_fmap in Hin as (f & Hf & _).
    repeat (apply elem_of_cons in Hname as [-> | Hname]);
      [| | | |by apply elem_of_nil in Hname]; peel_copy f Hf.
Defined.

(** The claim of C9 fails on a frame that already has a column called
    [abnormality_score]: the test records carry 350 and 450 there, the
    output carries the composite scores 0 and 100 instead. *)
Lemma run_anomaly_pipeline_overwrites_score_column :
  ∃ df_train df_test out,
    temporal_split (L := sample_library) rerun_frame "Time"
    = Ok (df_train, df_test)
    ∧ run_anomaly_pipeline (L := sample_library) rerun_frame "Time" = Ok out
    ∧ pd.column_values df_test "abnormality_score" = [pd.Num 350; pd.Num 450]
    ∧ pd.column_values out "abnormality_score" = [pd.Num 0; pd.Num 100].
Proof.
  eexists _, _, _. split; [by vm_compute|]. split; [by vm_compute|].
  split; by vm_compute.
Qed.

(** * Further properties of the pipeline *)

(** ** [ensemble_score]: range and ranking of the composite scores *)














(** *** Scaling the weights *)

Lemma is_min_scaled (t lo lo' : Q) (a b : list Q) :
  0 < t → Forall2 (λ x y, y == t * x) a b →
  is_min lo a → is_min lo' b → lo' == t * lo.
Proof.
  intros Ht Hab [Hin Hall] [Hin' Hall']. rewrite Forall_forall in Hall, Hall'.
  apply list_elem_of_lookup in Hin as [i Hi].
  apply list_elem_of_lookup in Hin' as [j Hj].
  destruct (Forall2_lookup_l _ _ _ _ _ Hab Hi) as (y & Hy & Ey).
  destruct (Forall2_lookup_r _ _ _ _ _ Hab Hj) as (x & Hx & Ex).
  apply list_elem_of_lookup_2 in Hy, Hx.
  pose proof (Hall' y Hy) as H1. pose proof (Hall x Hx) as H2.
  apply Qle_antisym.
  - by rewrite <- Ey.
  - rewrite Ex. apply Qmult_le_l; done.
Qed.

Lemma is_max_scaled (t hi hi' : Q) (a b : list Q) :
  0 < t → Forall2 (λ x y, y == t * x) a b →
  is_max hi a → is_max hi' b → hi' == t * hi.
Proof.
  intros Ht Hab [Hin Hall] [Hin' Hall']. rewrite Forall_forall in Hall, Hall'.
  apply list_elem_of_lookup in Hin as [i Hi].
  apply list_elem_of_lookup in Hin' as [j Hj].
  destruct (Forall2_lookup_l _ _ _ _ _ Hab Hi) as (y & Hy & Ey).
  destruct (Forall2_lookup_r _ _ _ _ _ Hab Hj) as (x & Hx & Ex).
  apply list_elem_of_lookup_2 in Hy, Hx.
  pose proof (Hall' y Hy) as H1. pose proof (Hall x Hx) as H2. simpl in *.
  apply Qle_antisym.
  - rewrite Ex. apply Qmult_le_l; done.
  - by rewrite <- Ey.
Qed.

Lemma interp_point_scaled (t lo hi lo' hi' c c' : Q) :
  0 < t → lo' == t * lo → hi' == t * hi → c' == t * c →
  lo <= c → c <= hi →
  np.interp_point [lo'; hi'] [0; 100] c' == np.interp_point [lo; hi] [0; 100] c.
Proof.
  intros Ht Hlo Hhi Hc H1 H2.
  assert (H1' : lo' <= c') by (rewrite Hlo, Hc; by apply Qmult_le_l).
  assert (H2' : c' <= hi') by (rewrite Hhi, Hc; by apply Qmult_le_l).
  destruct (Qlt_le_dec lo hi) as [Hlt|Hge].
  - assert (Hlt' : lo' < hi') by (rewrite Hlo, Hhi; by apply Qmult_lt_l).
    rewrite !interp_point_affine by done.
    rewrite Hlo, Hhi, Hc. field. split; lra.
  - assert (Heq : lo == hi) by lra.
    rewrite (interp_point_degenerate lo hi c) by lra.
    rewrite (interp_point_degenerate lo' hi' c'); [done| |].
    + by rewrite Hlo, Hhi, Heq.
    + rewrite Hc, Hlo. assert (Hcl : c == lo) by lra. by rewrite Hcl.
Qed.

Lemma weighted_sum_spec_scaled (t w1 w2 w3 : Q) (s1 s2 s3 : list Q) :
  Forall2 (λ x y, y == t * x)
    (weighted_sum_spec w1 w2 w3 s1 s2 s3)
    (weighted_sum_spec (t * w1) (t * w2) (t * w3) s1 s2 s3).
Proof.
  unfold weighted_sum_spec. change (map ?f ?l) with (f <$> l).
  apply Forall2_fmap, Forall_Forall2_diag, Forall_forall.
  intros i _. simpl. ring.
Qed.

(** Only the proportions of the weights matter: multiplying the three
    weights by one positive factor leaves every composite score the same
    rational number, so weights that do not sum to one give the scores
    of their normalised form. *)
Theorem ensemble_score_weight_scale_invariant
    (scores : gmap string np.ndarray) (weights weights' : gmap string Q)
    (t w_if w_pca w_svm : Q) (s_if s_pca s_svm : list Q) :
  0 < t →
  holds weights w_if w_pca w_svm →
  holds weights' (t * w_if) (t * w_pca) (t * w_svm) →
  holds scores s_if s_pca s_svm →
  length s_if = length s_pca → length s_pca = length s_svm → s_if ≠ [] →
  ∃ out out',
    ensemble_score scores weights = Ok out
    ∧ ensemble_score scores weights' = Ok out'
    ∧ Forall2 Qeq out' out.
Proof.
  intros Ht Hw Hw' Hs H12 H23 Hne.
  destruct (ensemble_score_typed _ _ _ _ _ _ _ _ Hw Hs H12 H23 Hne)
    as (lo & hi & Hlo & Hhi & Hrun).
  destruct (ensemble_score_typed _ _ _ _ _ _ _ _ Hw' Hs H12 H23 Hne)
    as (lo' & hi' & Hlo' & Hhi' & Hrun').
  pose proof (weighted_sum_spec_scaled t w_if w_pca w_svm s_if s_pca s_svm) as Hsc.
  pose proof (is_min_scaled _ _ _ _ _ Ht Hsc Hlo Hlo') as Elo.
  pose proof (is_max_scaled _ _ _ _ _ Ht Hsc Hhi Hhi') as Ehi.
  eexists _, _. split; [exact Hrun|]. split; [exact Hrun'|].
  change (map ?f ?l) with (f <$> l).
  apply Forall2_fmap, Forall2_same_length_lookup_2.
  { by rewrite !weighted_sum_spec_length. }
  intros i c' c Hc' Hc.
  destruct (Forall2_lookup_l _ _ _ _ _ Hsc Hc) as (y & Hy & Ey).
  assert (y = c') by congruence. subst y.
  apply list_elem_of_lookup_2 in Hc.
  apply (interp_point_scaled t); try done.
  - by eapply is_min_le.
  - by eapply is_max_ge.
Qed.

Lemma ensemble_score_weight_scale_invariant_witness :
  holds heavy_weights (0.5 * 1) (0.5 * 1) (0.5 * 1)
  ∧ ∃ out out',
      ensemble_score (mk_scores [1; 2; 4] [0; 1; 0] [3; 3; 3])
        {[ "IF" := 1; "PCA" := 1; "SVM" := 1 ]} = Ok out
      ∧ ensemble_score (mk_scores [1; 2; 4] [0; 1; 0] [3; 3; 3]) heavy_weights
        = Ok out'
      ∧ Forall2 Qeq out' out.
Proof.
  assert (Hw : holds ({[ "IF" := 1; "PCA" := 1; "SVM" := 1 ]} : gmap string Q)
                 1 1 1) by (by vm_compute).
  assert (Hw' : holds heavy_weights (0.5 * 1) (0.5 * 1) (0.5 * 1))
    by (by vm_compute).
  assert (Hs : holds (mk_scores [1; 2; 4] [0; 1; 0] [3; 3; 3])
                 [1; 2; 4] [0; 1; 0] [3; 3; 3]) by (by vm_compute).
  split; [exact Hw'|].
  exact (ensemble_score_weight_scale_invariant _ _ _ 0.5 1 1 1 _ _ _
           ltac:(reflexivity) Hw Hw' Hs eq_refl eq_refl ltac:(discriminate)).
Defined.

(** ** [ensemble_score]: what it raises on malformed input *)

(** [ensemble_score] has no guard for an empty test partition: with
    three empty score arrays the weighted sum is empty and
    [combined.min()] raises [ValueError]. *)
Theorem ensemble_score_empty_value_error
    (scores : gmap string np.ndarray) (weights : gmap string Q)
    (w_if w_pca w_svm : Q) :
  holds weights w_if w_pca w_svm →
  holds scores [] [] [] →
  ensemble_score scores weights = Raise ValueError.
Proof.
  intros (Hw1 & Hw2 & Hw3) (Hs1 & Hs2 & Hs3).
  unfold ensemble_score, getitem.
  rewrite Hw1, Hs1, Hw2, Hs2, Hw3, Hs3. reflexivity.
Qed.

Lemma ensemble_score_empty_value_error_witness :
  holds default_weights 0.5 0.3 0.2
  ∧ holds (mk_scores [] [] []) [] [] []
  ∧ ensemble_score (mk_scores [] [] []) default_weights = Raise ValueError.
Proof.
  assert (Hw : holds default_weights 0.5 0.3 0.2) by (by vm_compute).
  assert (Hs : holds (mk_scores [] [] []) [] [] []) by (by vm_compute).
  split; [exact Hw|]. split; [exact Hs|].
  exact (ensemble_score_empty_value_error _ _ _ _ _ Hw Hs).
Defined.

(** Two score arrays of different lengths, neither of length one, cannot
    be broadcast: the sum raises [ValueError]. *)
Theorem ensemble_score_shape_mismatch
    (scores : gmap string np.ndarray) (weights : gmap string Q)
    (w_if w_pca : Q) (s_if s_pca : list Q) :
  weights !! "IF" = Some w_if → weights !! "PCA" = Some w_pca →
  scores !! "IF" = Some s_if → scores !! "PCA" = Some s_pca →
  length s_if ≠ length s_pca → length s_if ≠ 1%nat → length s_pca ≠ 1%nat →
  ensemble_score scores weights = Raise ValueError.
Proof.
  intros W1 W2 S1 S2 Hne H1 H2. unfold ensemble_score, getitem.
  rewrite W1, S1, W2, S2. cbn.
  unfold np.add, np.scalar_mul. rewrite !length_map.
  apply Nat.eqb_neq in Hne as ->.
  destruct s_if as [|x [|? ?]], s_pca as [|y [|? ?]]; done.
Qed.

Lemma ensemble_score_shape_mismatch_witness :
  ensemble_score (mk_scores [1; 2] [1; 2; 3] [0; 0]) default_weights
  = Raise ValueError.
Proof.
  apply (ensemble_score_shape_mismatch _ _ 0.5 0.3 [1; 2] [1; 2; 3]);
    by vm_compute.
Defined.

(** The entries are read in the order of the expression: when the
    weight or the score array of the forest or of the projection is
    missing, [ensemble_score] raises [KeyError], whatever the other
    entries are. *)
Theorem ensemble_score_missing_entry_key_error
    (scores : gmap string np.ndarray) (weights : gmap string Q) :
  weights !! "IF" = None ∨ scores !! "IF" = None
  ∨ weights !! "PCA" = None ∨ scores !! "PCA" = None →
  ensemble_score scores weights = Raise KeyError.
Proof.
  intros H. unfold ensemble_score, getitem.
  destruct (weights !! "IF") as [w1|]; [|done].
  destruct (scores !! "IF") as [s1|]; [|done].
  destruct (weights !! "PCA") as [w2|]; [|done].
  destruct (scores !! "PCA") as [s2|]; [|done].
  destruct H as [H|[H|[H|H]]]; discriminate H.
Qed.

Lemma ensemble_score_missing_entry_key_error_witness :
  ensemble_score {[ "IF" := [1; 2]; "SVM" := [3] ]} default_weights
  = Raise KeyError.
Proof.
  apply ensemble_score_missing_entry_key_error.
  right; right; right. by vm_compute.
Defined.

Lemma add_not_key_error (a b : list Q) : np.add a b ≠ Raise KeyError.
Proof.
  unfold np.add. destruct (_ =? _)%nat; [done|].
  destruct a as [|x [|? ?]], b as [|y [|? ?]]; done.
Qed.

(** Conversely a [KeyError] of [ensemble_score] always comes from a
    missing entry: with all three weights and all three score arrays
    present it raises none. *)
Theorem ensemble_score_key_error_only_missing
    (scores : gmap string np.ndarray) (weights : gmap string Q) :
  ensemble_score scores weights = Raise KeyError →
  ∃ k, k ∈ ["IF"; "PCA"; "SVM"]
       ∧ (weights !! k = None ∨ scores !! k = None).
Proof.
  unfold ensemble_score, getitem. intros H.
  destruct (weights !! "IF") as [w1|] eqn:W1;
    [|exists "IF"; split; [set_solver|by left]].
  destruct (scores !! "IF") as [s1|] eqn:S1;
    [|exists "IF"; split; [set_solver|by right]].
  destruct (weights !! "PCA") as [w2|] eqn:W2;
    [|exists "PCA"; split; [set_solver|by left]].
  destruct (scores !! "PCA") as [s2|] eqn:S2;
    [|exists "PCA"; split; [set_solver|by right]].
  cbn in H.
  destruct (np.add _ _) as [t|e] eqn:Et in H;
    [|cbn in H; injection H as ->; by apply add_not_key_error in Et].
  cbn in H.
  destruct (weights !! "SVM") as [w3|] eqn:W3;
    [|exists "SVM"; split; [set_solver|by left]].
  destruct (scores !! "SVM") as [s3|] eqn:S3;
    [|exists "SVM"; split; [set_solver|by right]].
  cbn in H. exfalso.
  destruct (np.add t _) as [c|e] eqn:Ec in H;
    [|cbn in H; injection H as ->; by apply add_not_key_error in Ec].
  cbn in H. destruct c as [|x c]; [done|]. cbn in H. done.
Qed.

Lemma ensemble_score_key_error_only_missing_witness :
  ensemble_score (mk_scores [1] [2] [3]) {[ "IF" := 0.5; "PCA" := 0.3 ]}
  = Raise KeyError
  ∧ ∃ k, k ∈ ["IF"; "PCA"; "SVM"]
         ∧ (({[ "IF" := 0.5; "PCA" := 0.3 ]} : gmap string Q) !! k = None
            ∨ mk_scores [1] [2] [3] !! k = None).
Proof.
  assert (E : ensemble_score (mk_scores [1] [2] [3])
                {[ "IF" := 0.5; "PCA" := 0.3 ]} = Raise KeyError)
    by (by vm_compute).
  split; [exact E|]. exact (ensemble_score_key_error_only_missing _ _ E).
Defined.

(** ** [get_top_features]: negative [k] and too few names *)

Lemma argsort_length {A} (le : relation A) (d : A) (a : list A) (idx : list nat) :
  np.is_argsort le d a idx → length idx = length a.
Proof. intros [Hp _]. rewrite Hp. apply length_seq. Qed.

(** A negative [k] is not rejected: the slice [[:k]] then drops the
    [-k] features of lowest variance, so the call returns what the call
    with [k + m] returns ([m] the number of features), and the empty list
    once [-k] reaches [m]. *)
Theorem get_top_features_negative_k `{L : Library}
    (X : list (list Q)) (feature_names : list string) (k : Z) :
  np.is_argsort Qle 0 (np.var_axis0 X) (np_argsort (np.var_axis0 X)) →
  (k < 0)%Z →
  get_top_features X feature_names k
  = get_top_features X feature_names (Z.max 0 (Z.of_nat (np.ncols X) + k)).
Proof.
  intros Hsort Hk. unfold get_top_features, np.slice_to.
  pose proof (argsort_length _ _ _ _ Hsort) as Hlen.
  rewrite var_axis0_length in Hlen.
  replace (k <? 0)%Z with true by lia.
  replace (Z.max 0 (Z.of_nat (np.ncols X) + k) <? 0)%Z with false by lia.
  rewrite length_reverse, Hlen. do 2 f_equal. lia.
Qed.

Lemma get_top_features_negative_k_witness :
  get_top_features (L := sample_library) scenario_matrix
    ["cpu"; "mem"; "net"] (-1)
  = Ok ["net"; "cpu"]
  ∧ get_top_features (L := sample_library) scenario_matrix
      ["cpu"; "mem"; "net"] (-3)
    = Ok [].
Proof.
  assert (Hsort : np.is_argsort Qle 0 (np.var_axis0 scenario_matrix)
                    (np_argsort (np.var_axis0 scenario_matrix))).
  { split; apply (bool_decide_unpack _); by vm_compute. }
  split.
  - rewrite (get_top_features_negative_k scenario_matrix _ (-1) Hsort);
      by vm_compute.
  - rewrite (get_top_features_negative_k scenario_matrix _ (-3) Hsort);
      by vm_compute.
Defined.

Lemma map_result_getitem_index_error {A} (l : list A) (idx : list nat) (i : nat) :
  i ∈ idx → (length l ≤ i)%nat →
  map_result (list_getitem l) idx = Raise IndexError.
Proof.
  intros Hin Hi. induction idx as [|j idx IH]; [by apply elem_of_nil in Hin|].
  simpl. destruct (l !! j) as [a|] eqn:Hj.
  - assert (E : list_getitem l j = Ok a)
      by (unfold list_getitem; by rewrite Hj).
    rewrite E. cbn.
    apply elem_of_cons in Hin as [-> | Hin].
    + apply lookup_lt_Some in Hj. lia.
    + by rewrite IH.
  - assert (E : list_getitem l j = Raise IndexError)
      by (unfold list_getitem; by rewrite Hj).
    by rewrite E.
Qed.

(** [get_top_features] does not compare the number of names with the
    number of columns: when fewer names than columns are passed and [k]
    is at least the number of columns, some ranked position has no name
    and the comprehension raises [IndexError]. *)
Theorem get_top_features_short_names_index_error `{L : Library}
    (X : list (list Q)) (feature_names : list string) (k : Z) :
  np.is_argsort Qle 0 (np.var_axis0 X) (np_argsort (np.var_axis0 X)) →
  (length feature_names < np.ncols X)%nat →
  (Z.of_nat (np.ncols X) <= k)%Z →
  get_top_features X feature_names k = Raise IndexError.
Proof.
  intros Hsort Hnames Hk.
  pose proof (order_perm X Hsort) as Hperm.
  unfold get_top_features, np.slice_to.
  replace (k <? 0)%Z with false by lia.
  rewrite take_ge.
  2:{ rewrite Hperm, length_seq. lia. }
  apply (map_result_getitem_index_error _ _ (length feature_names)); [|done].
  rewrite Hperm. apply elem_of_seq. lia.
Qed.

Lemma get_top_features_short_names_index_error_witness :
  get_top_features (L := sample_library) scenario_matrix ["cpu"; "mem"] 7
  = Raise IndexError.
Proof.
  apply get_top_features_short_names_index_error.
  - split; apply (bool_decide_unpack _); by vm_compute.
  - vm_compute. lia.
  - by vm_compute.
Defined.

(** ** [validate_and_prepare]: what the cleaning keeps and what it fills *)

Lemma present_fill (m : pd.cell) (v : list pd.cell) :
  pd.isna m = true → pd.present (pd.fill m v) = pd.present v.
Proof.
  intros Hm. unfold pd.present, pd.fill.
  induction v as [|c v IH]; [done|].
  cbn. rewrite IH. destruct c; cbn; try done; by destruct m.
Qed.

Lemma fill_no_missing (m : pd.cell) (v : list pd.cell) :
  pd.isna m = false → Forall (λ c, pd.isna c = false) (pd.fill m v).
Proof.
  intros Hm. unfold pd.fill. apply Forall_forall. intros c Hc.
  apply list_elem_of_fmap in Hc as (c' & -> & _).
  by destruct (pd.isna c') eqn:E.
Qed.

Lemma fill_id (m : pd.cell) (v : list pd.cell) :
  Forall (λ c, pd.isna c = false) v → pd.fill m v = v.
Proof.
  induction 1 as [|c v Hc _ IH]; [done|].
  unfold pd.fill in *. simpl. by rewrite Hc, IH.
Qed.

Lemma fill_fill (m : pd.cell) (v : list pd.cell) :
  pd.isna m = true → pd.fill m (pd.fill m v) = pd.fill m v.
Proof.
  intros Hm. unfold pd.fill. rewrite map_map. apply map_ext.
  intros c. destruct (pd.isna c) eqn:E; by rewrite ?Hm, ?E.
Qed.

Lemma mean_cases (v : list pd.cell) :
  (pd.present v = [] ∧ pd.mean v = pd.NaN)
  ∨ (pd.present v ≠ [] ∧ pd.isna (pd.mean v) = false).
Proof.
  unfold pd.mean. destruct (pd.present v); [by left|by right].
Qed.

Lemma fill_mean_idempotent (v : list pd.cell) :
  pd.fill (pd.mean (pd.fill (pd.mean v) v)) (pd.fill (pd.mean v) v)
  = pd.fill (pd.mean v) v.
Proof.
  destruct (mean_cases v) as [[Hp Hm]|[Hp Hm]].
  - rewrite Hm.
    assert (E : pd.mean (pd.fill pd.NaN (v)) = pd.NaN).
    { unfold pd.mean. by rewrite present_fill, Hp. }
    rewrite E. by apply fill_fill.
  - by apply fill_id, fill_no_missing.
Qed.

Lemma filter_numeric_map_columns (f : list pd.cell → list pd.cell) (n : nat)
    (df : pd.DataFrame) :
  Forall (λ c : string * pd.Series, pd.dtype_of c.2 = pd.number) (pd.columns df) →
  pd.select_number (pd.map_columns f n df) = pd.map_columns f n df.
Proof.
  intros Hall. unfold pd.select_number, pd.map_columns. simpl. f_equal.
  induction Hall as [|c l Hc _ IH]; [done|].
  simpl. rewrite filter_cons_True by done. by rewrite IH.
Qed.

Lemma select_number_numeric (df : pd.DataFrame) :
  Forall (λ c : string * pd.Series, pd.dtype_of c.2 = pd.number)
    (pd.columns (pd.select_number df)).
Proof.
  unfold pd.select_number. simpl. apply Forall_forall.
  intros c Hc. by apply list_elem_of_filter in Hc as [Hc _].
Qed.

(** Cleaning a frame that is already clean changes nothing:
    [validate_and_prepare] is idempotent. *)
Theorem validate_and_prepare_idempotent (df : pd.DataFrame) :
  validate_and_prepare (validate_and_prepare df) = validate_and_prepare df.
Proof.
  unfold validate_and_prepare.
  set (numeric_df := pd.select_number df).
  assert (E : pd.select_number (pd.fillna_mean numeric_df)
              = pd.fillna_mean numeric_df).
  { apply filter_numeric_map_columns, select_number_numeric. }
  rewrite E. unfold pd.fillna_mean, pd.map_columns. simpl. f_equal.
  rewrite map_map. apply map_ext. intros [name s]. simpl.
  by rewrite fill_mean_idempotent.
Qed.



(** The cleaning touches missing cells only: a value that is present in
    a numeric column is the same in the cleaned column, and the cleaned
    column has as many cells as the original one. *)
Theorem validate_and_prepare_keeps_values (df : pd.DataFrame)
    (name : string) (s : pd.Series) :
  pd.assoc name (pd.columns df) = Some s →
  pd.dtype_of s = pd.number →
  length (pd.column_values (validate_and_prepare df) name)
  = length (pd.values s)
  ∧ ∀ i c, pd.values s !! i = Some c → pd.isna c = false →
      pd.column_values (validate_and_prepare df) name !! i = Some c.
Proof.
  intros Hs Hnum.
  rewrite (validate_and_prepare_column df name s Hs Hnum). split.
  - unfold pd.fill. apply length_map.
  - intros i c Hi Hc. by apply fill_lookup_present.
Qed.

Lemma validate_and_prepare_keeps_values_witness :
  length (pd.column_values (validate_and_prepare sample_frame) "load") = 4%nat
  ∧ ∀ i c, [pd.Num 30; pd.Num 10; pd.NaN; pd.Num 20] !! i = Some c →
      pd.isna c = false →
      pd.column_values (validate_and_prepare sample_frame) "load" !! i = Some c.
Proof.
  exact (validate_and_prepare_keeps_values sample_frame "load"
           (pd.mkSeries pd.number [pd.Num 30; pd.Num 10; pd.NaN; pd.Num 20])
           eq_refl eq_refl).
Defined.

(** ** [pca_reconstruction_error] and [score_models] *)







Lemma lift_ok {A} (o : option A) (a : A) : lift o = Ok a → o = Some a.
Proof. destruct o; [|done]. by intros [= ->]. Qed.

Lemma holds_mk_scores (a b c : list Q) : holds (mk_scores a b c) a b c.
Proof.
  unfold holds, mk_scores. split; [|split].
  - apply lookup_insert_eq.
  - rewrite lookup_insert_ne by done. apply lookup_insert_eq.
  - rewrite !lookup_insert_ne by done. apply lookup_singleton_eq.
Qed.

Lemma holds_default_weights : holds default_weights 0.5 0.3 0.2.
Proof. unfold holds, default_weights. by vm_compute. Qed.

Lemma score_models_ok `{L : Library} (models : Models) (X_test : list (list Q))
    (raw : gmap string (list Q)) :
  score_models models X_test = Ok raw →
  ∃ s_if s_pca s_svm,
    IsolationForest_score_samples (model_IF models) X_test = Some s_if
    ∧ pca_reconstruction_error (model_PCA models) X_test = Ok s_pca
    ∧ OneClassSVM_score_samples (model_SVM models) X_test = Some s_svm
    ∧ raw = mk_scores (np.neg s_if) s_pca (np.neg s_svm).
Proof.
  unfold score_models. intros H.
  apply bind_ok in H as (s_if & Hif & H). apply bind_ok in H as (s_pca & Hpca & H).
  apply bind_ok in H as (s_svm & Hsvm & H). injection H as <-.
  apply lift_ok in Hif, Hsvm. by exists s_if, s_pca, s_svm.
Qed.




(** ** [scale_data] *)

Section scaling.
Context `{L : Library}.



End scaling.


(** ** Where a [KeyError] can come from *)

Lemma bind_not_raise {A B} (e : exn) (r : result A) (k : A → result B) :
  r ≠ Raise e → (∀ a, r = Ok a → k a ≠ Raise e) → r ≫= k ≠ Raise e.
Proof.
  intros Hr Hk. destruct r as [a|e']; cbn.
  - by apply Hk.
  - intros E. apply Hr. congruence.
Qed.

Lemma lift_not_key_error {A} (o : option A) : lift o ≠ Raise KeyError.
Proof. by destruct o. Qed.

Lemma setitem_not_key_error (df : pd.DataFrame) (col : string) (s : pd.Series) :
  pd.setitem df col s ≠ Raise KeyError.
Proof. unfold pd.setitem. by destruct (_ =? _)%nat. Qed.

Lemma map_result_not_raise {A B} (e : exn) (f : A → result B) (l : list A) :
  (∀ a, f a ≠ Raise e) → map_result f l ≠ Raise e.
Proof.
  intros Hf. induction l as [|a l IH]; simpl; [done|].
  apply bind_not_raise; [done|]. intros b _.
  apply bind_not_raise; [done|]. done.
Qed.

Lemma to_numpy_not_key_error (df : pd.DataFrame) :
  pd.to_numpy df ≠ Raise KeyError.
Proof.
  unfold pd.to_numpy. apply map_result_not_raise. intros i.
  apply map_result_not_raise. intros c. by destruct (nth i _ _).
Qed.

Lemma ensemble_score_no_key_error (scores : gmap string (list Q))
    (weights : gmap string Q) (w1 w2 w3 : Q) (s1 s2 s3 : list Q) :
  holds weights w1 w2 w3 → holds scores s1 s2 s3 →
  ensemble_score scores weights ≠ Raise KeyError.
Proof.
  intros (Hw1 & Hw2 & Hw3) (Hs1 & Hs2 & Hs3).
  unfold ensemble_score, getitem. rewrite Hw1, Hs1, Hw2, Hs2, Hw3, Hs3. cbn.
  apply bind_not_raise; [apply add_not_key_error|]. intros t _.
  apply bind_not_raise; [apply add_not_key_error|]. intros c _.
  apply bind_not_raise; [by destruct c|]. intros lo _.
  apply bind_not_raise; [by destruct c|]. intros hi _. done.
Qed.

Lemma add_copy_not_key_error (df_test : pd.DataFrame)
    (acc : result pd.DataFrame) (col : string) :
  acc ≠ Raise KeyError → add_copy df_test acc col ≠ Raise KeyError.
Proof.
  intros Hacc. unfold add_copy. apply bind_not_raise; [done|]. intros o _.
  destruct (pd.contains df_test col) eqn:Hc; [|done].
  apply contains_true in Hc as [s Hs]. unfold pd.getitem. rewrite Hs. cbn.
  apply setitem_not_key_error.
Qed.

Lemma add_feature_copies_not_key_error (df_test output_df : pd.DataFrame)
    (top_features : list string) :
  add_feature_copies df_test output_df top_features ≠ Raise KeyError.
Proof.
  unfold add_feature_copies.
  assert (Hacc : Ok output_df ≠ Raise KeyError) by done.
  revert Hacc. generalize (Ok output_df).
  induction top_features as [|c cs IH]; intros acc Hacc; simpl; [done|].
  apply IH. by apply add_copy_not_key_error.
Qed.

Section key_error.
Context `{L : Library}.

Lemma temporal_split_key_error (df_raw : pd.DataFrame) (time_col : string) :
  temporal_split df_raw time_col = Raise KeyError
  ↔ pd.assoc time_col (pd.columns df_raw) = None.
Proof.
  unfold temporal_split, pd.getitem.
  destruct (pd.assoc time_col (pd.columns df_raw)) as [col|] eqn:Hcol; cbn;
    [|done].
  split; [|done]. intros H. exfalso. revert H.
  apply bind_not_raise; [apply lift_not_key_error|]. intros ts _.
  apply bind_not_raise; [apply setitem_not_key_error|]. intros df Hdf.
  apply setitem_ok in Hdf as [_ ->].
  unfold sort_values, pd.getitem. cbn. rewrite assoc_set_same. done.
Qed.

Lemma scale_data_not_key_error (train_df test_df : pd.DataFrame) :
  scale_data train_df test_df ≠ Raise KeyError.
Proof.
  unfold scale_data.
  apply bind_not_raise; [apply to_numpy_not_key_error|]. intros A_train _.
  apply bind_not_raise; [apply lift_not_key_error|]. intros scaler _.
  apply bind_not_raise; [apply lift_not_key_error|]. intros X_train _.
  apply bind_not_raise; [apply to_numpy_not_key_error|]. intros A_test _.
  apply bind_not_raise; [apply lift_not_key_error|]. done.
Qed.

Lemma fit_models_not_key_error (X_train : list (list Q)) :
  fit_models X_train ≠ Raise KeyError.
Proof.
  unfold fit_models.
  do 3 (apply bind_not_raise; [apply lift_not_key_error|]; intros ? _). done.
Qed.

Lemma score_models_not_key_error (models : Models) (X_test : list (list Q)) :
  score_models models X_test ≠ Raise KeyError.
Proof.
  unfold score_models, pca_reconstruction_error.
  apply bind_not_raise; [apply lift_not_key_error|]. intros s_if _.
  apply bind_not_raise.
  { apply bind_not_raise; [apply lift_not_key_error|]. intros Z _.
    apply bind_not_raise; [apply lift_not_key_error|]. intros X_proj _.
    unfold np.mean_sq_diff_axis1. by case_bool_decide. }
  intros s_pca _.
  apply bind_not_raise; [apply lift_not_key_error|]. done.
Qed.

Lemma get_top_features_not_key_error (X : list (list Q))
    (names : list string) (k : Z) :
  get_top_features X names k ≠ Raise KeyError.
Proof.
  unfold get_top_features. apply map_result_not_raise.
  intros i. unfold list_getitem. by destruct (names !! i).
Qed.

(** The run raises [KeyError] exactly when the frame has no column of
    the given timestamp name: every other lookup of the pipeline (the
    three detector names in the scores and in the weights, the ranked
    features in the test partition) is of a key that is there. *)
Theorem run_anomaly_pipeline_key_error_iff (df_raw : pd.DataFrame)
    (time_col : string) :
  run_anomaly_pipeline df_raw time_col = Raise KeyError
  ↔ pd.assoc time_col (pd.columns df_raw) = None.
Proof.
  split.
  - intros H.
    destruct (pd.assoc time_col (pd.columns df_raw)) as [col|] eqn:Hcol; [|done].
    exfalso. revert H. unfold run_anomaly_pipeline.
    apply bind_not_raise.
    { intros E. apply temporal_split_key_error in E. congruence. }
    intros [df_train df_test] _.
    apply bind_not_raise; [apply scale_data_not_key_error|].
    intros [[X_train X_test] scaler] _.
    apply bind_not_raise; [apply fit_models_not_key_error|]. intros models _.
    apply bind_not_raise; [apply score_models_not_key_error|].
    intros raw Hraw.
    apply score_models_ok in Hraw as (s_if & s_pca & s_svm & _ & _ & _ & ->).
    pose proof (holds_mk_scores (np.neg s_if) s_pca (np.neg s_svm))
      as (Hif & Hpca & Hsvm).
    apply bind_not_raise.
    { eapply ensemble_score_no_key_error;
        [apply holds_default_weights|apply holds_mk_scores]. }
    intros ens _.
    apply bind_not_raise.
    { unfold add_score_columns, getitem. rewrite Hif, Hpca, Hsvm. cbn.
      do 3 (apply bind_not_raise; [apply setitem_not_key_error|]; intros ? _).
      apply setitem_not_key_error. }
    intros output_df _.
    apply bind_not_raise; [apply get_top_features_not_key_error|].
    intros top_features _. apply add_feature_copies_not_key_error.
  - intros H. apply temporal_split_key_error in H.
    unfold run_anomaly_pipeline. by rewrite H.
Qed.

End key_error.

(** ** The features of the two partitions *)

Lemma assoc_set_elem {V} (k : string) (v s : V) (l : list (string * V)) :
  NoDup l.*1 → (k, s) ∈ pd.assoc_set k v l → s = v.
Proof.
  induction l as [|[k' v'] l IH]; simpl; intros Hnd Hin.
  - apply list_elem_of_singleton in Hin. congruence.
  - apply NoDup_cons in Hnd as [Hk' Hnd].
    destruct (String.eqb k' k) eqn:E.
    + apply String.eqb_eq in E as ->.
      apply elem_of_cons in Hin as [Hin|Hin]; [congruence|].
      destruct Hk'. by apply (list_elem_of_fmap_2 fst) in Hin.
    + apply String.eqb_neq in E.
      apply elem_of_cons in Hin as [Hin|Hin]; [congruence|]. by apply IH.
Qed.

Lemma map_columns_elem (f : list pd.cell → list pd.cell) (n : nat)
    (df : pd.DataFrame) (name : string) (s : pd.Series) :
  (name, s) ∈ pd.columns (pd.map_columns f n df) →
  ∃ s', (name, s') ∈ pd.columns df ∧ pd.dtype_of s' = pd.dtype_of s.
Proof.
  unfold pd.map_columns. simpl. intros Hin.
  apply list_elem_of_fmap in Hin as ([name' s'] & E & Hin).
  injection E as -> ->. by exists s'.
Qed.

Lemma numeric_names_map_columns (f : list pd.cell → list pd.cell) (n : nat)
    (df : pd.DataFrame) :
  (pd.columns (validate_and_prepare (pd.map_columns f n df))).*1
  = (pd.columns (validate_and_prepare df)).*1.
Proof.
  unfold validate_and_prepare, pd.fillna_mean. rewrite !map_columns_names.
  unfold pd.select_number, pd.map_columns. simpl.
  induction (pd.columns df) as [|[name s] l IH]; [done|]. simpl.
  destruct (decide (pd.dtype_of s = pd.number)) as [Hs|Hs].
  - rewrite !filter_cons_True by done. cbn. by rewrite IH.
  - by rewrite !filter_cons_False.
Qed.

Lemma validate_and_prepare_names_numeric (df : pd.DataFrame) (name : string) :
  name ∈ (pd.columns (validate_and_prepare df)).*1 →
  ∃ s, (name, s) ∈ pd.columns df ∧ pd.dtype_of s = pd.number.
Proof.
  unfold validate_and_prepare, pd.fillna_mean. rewrite map_columns_names.
  unfold pd.select_number. simpl. intros Hin.
  apply list_elem_of_fmap in Hin as ([name' s] & -> & Hin).
  apply list_elem_of_filter in Hin as [Hnum Hin]. by exists s.
Qed.

Section features.
Context `{L : Library}.

Lemma temporal_split_parsed (df_raw : pd.DataFrame) (time_col : string)
    (df_train df_test : pd.DataFrame) :
  temporal_split df_raw time_col = Ok (df_train, df_test) →
  ∃ ts indexer k,
    let parsed :=
      pd.mkFrame (pd.nrows df_raw)
        (pd.assoc_set time_col (pd.of_timestamps ts) (pd.columns df_raw)) in
    df_train = pd.iloc_to k (pd.take_rows indexer parsed)
    ∧ df_test = pd.iloc_from k (pd.take_rows indexer parsed).
Proof.
  unfold temporal_split. intros H.
  apply bind_ok in H as (col & _ & H). apply bind_ok in H as (ts & _ & H).
  apply bind_ok in H as (df1 & H1 & H). apply bind_ok in H as (df2 & H2 & H).
  apply setitem_ok in H1 as [_ ->].
  unfold sort_values in H2. apply bind_ok in H2 as (s & _ & H2).
  injection H2 as <-. injection H as <- <-. by eexists ts, _, _.
Qed.

(** Both partitions are cut from one frame, so cleaning them gives the
    same feature names in the same order: the columns of the cleaned
    test partition are the features the scaler was fitted on. *)
Theorem partitions_share_feature_names (df_raw : pd.DataFrame)
    (time_col : string) (df_train df_test : pd.DataFrame) :
  temporal_split df_raw time_col = Ok (df_train, df_test) →
  let '(_, df_test_clean, feature_names) :=
    clean_partitions df_train df_test in
  (pd.columns df_test_clean).*1 = feature_names.
Proof.
  intros H. apply temporal_split_ok in H as (sorted & k & -> & ->).
  unfold clean_partitions, pd.iloc_to, pd.iloc_from.
  by rewrite !numeric_names_map_columns.
Qed.

(** The timestamp column is never a feature: [pd.to_datetime] makes it a
    datetime column, which [select_dtypes] leaves out, so (column names
    being distinct, as [pd.read_csv] makes them) its name is not among
    the feature names the models are fitted on. *)
Theorem time_column_not_a_feature (df_raw : pd.DataFrame)
    (time_col : string) (df_train df_test : pd.DataFrame) :
  NoDup (pd.columns df_raw).*1 →
  temporal_split df_raw time_col = Ok (df_train, df_test) →
  time_col ∉ (clean_partitions df_train df_test).2.
Proof.
  intros Hnd H Hin.
  apply temporal_split_parsed in H as (ts & indexer & k & -> & _).
  unfold clean_partitions in Hin. cbn [snd] in Hin.
  apply validate_and_prepare_names_numeric in Hin as (s & Hin & Hnum).
  unfold pd.iloc_to in Hin.
  apply map_columns_elem in Hin as (s1 & Hin & E1).
  unfold pd.take_rows in Hin.
  apply map_columns_elem in Hin as (s2 & Hin & E2).
  cbn [pd.columns] in Hin.
  apply assoc_set_elem in Hin; [|done]. subst s2.
  rewrite Hnum, <- E2 in E1. discriminate E1.
Qed.

End features.

Lemma partitions_share_feature_names_witness :
  ∃ df_train df_test,
    temporal_split (L := sample_library) sample_frame "Time"
    = Ok (df_train, df_test)
    ∧ (pd.columns (validate_and_prepare df_test)).*1
      = (pd.columns (validate_and_prepare df_train)).*1.
Proof.
  assert (E : ∃ df_train df_test,
            temporal_split (L := sample_library) sample_frame "Time"
            = Ok (df_train, df_test)).
  { vm_compute. eexists _, _. reflexivity. }
  destruct E as (df_train & df_test & E). exists df_train, df_test.
  split; [exact E|].
  exact (partitions_share_feature_names (L := sample_library)
           sample_frame "Time" df_train df_test E).
Defined.

Lemma time_column_not_a_feature_witness :
  ∃ df_train df_test,
    temporal_split (L := sample_library) sample_frame "Time"
    = Ok (df_train, df_test)
    ∧ "Time" ∉ (clean_partitions df_train df_test).2.
Proof.
  assert (E : ∃ df_train df_test,
            temporal_split (L := sample_library) sample_frame "Time"
            = Ok (df_train, df_test)).
  { vm_compute. eexists _, _. reflexivity. }
  destruct E as (df_train & df_test & E). exists df_train, df_test.
  split; [exact E|].
  apply (time_column_not_a_feature (L := sample_library) sample_frame "Time");
    [|exact E].
  apply (bool_decide_unpack _). by vm_compute.
Defined.

(** ** The dashboard *)



Section dashboard_properties.
Context `{L : Library}.

Lemma run_anomaly_pipeline_stages (df_raw : pd.DataFrame) (time_col : string)
    (out : pd.DataFrame) :
  run_anomaly_pipeline df_raw time_col = Ok out →
  ∃ df_train df_test X_train raw_scores ens top_features,
    temporal_split df_raw time_col = Ok (df_train, df_test)
    ∧ ensemble_score raw_scores default_weights = Ok ens
    ∧ get_top_features X_train
        (pd.columns (validate_and_prepare df_train)).*1 7 = Ok top_features
    ∧ assemble_output df_test ens raw_scores top_features = Ok out.
Proof.
  unfold run_anomaly_pipeline, clean_partitions. intros H.
  apply bind_ok in H as ([df_train df_test] & Hsplit & H). cbn zeta beta iota in H.
  apply bind_ok in H as ([[X_train X_test] scaler] & Hscale & H).
  apply bind_ok in H as (models & Hfit & H).
  apply bind_ok in H as (raw_scores & Hscore & H).
  apply bind_ok in H as (ens & Hens & H).
  apply bind_ok in H as (output_df & Hscores & H).
  apply bind_ok in H as (top_features & Htop & H).
  exists df_train, df_test, X_train, raw_scores, ens, top_features.
  repeat (split; [done|]).
  unfold assemble_output. by rewrite Hscores.
Qed.



Lemma prefix_refl (s : string) : String.prefix s s = true.
Proof.
  induction s as [|a s IH]; simpl; [done|].
  by destruct (Ascii.ascii_dec a a).
Qed.

Lemma str_contains_suffix (sub f : string) :
  dashboard.str_contains sub (f +:+ sub) = true.
Proof.
  induction f as [|c f IH].
  - change ("" +:+ sub) with sub.
    pose proof (prefix_refl sub) as Hp.
    destruct sub; [done|]. unfold dashboard.str_contains. by rewrite Hp.
  - change (String c f +:+ sub) with (String c (f +:+ sub)).
    cbn [dashboard.str_contains]. rewrite IH.
    by destruct (String.prefix sub (String c (f +:+ sub))).
Qed.

(** The dashboard finds the copies by the text [_copy] in the column
    name: in the output of a run it lists the copy of every ranked
    feature, and none of the four score columns. *)
Theorem dashboard_top_cols_copies (df_raw : pd.DataFrame)
    (time_col : string) (out : pd.DataFrame) :
  run_anomaly_pipeline df_raw time_col = Ok out →
  ∃ df_train df_test X_train top_features,
    temporal_split df_raw time_col = Ok (df_train, df_test)
    ∧ get_top_features X_train
        (pd.columns (validate_and_prepare df_train)).*1 7 = Ok top_features
    ∧ (∀ f, f ∈ top_features → f +:+ "_copy" ∈ dashboard.top_cols out)
    ∧ (∀ c, c ∈ score_columns → c ∉ dashboard.top_cols out).
Proof.
  intros H.
  apply run_anomaly_pipeline_stages in H
    as (df_train & df_test & X_train & raw & ens & top & Hsplit & _ & Htop & H).
  apply assemble_output_ok in H
    as (s_if & s_pca & s_svm & _ & _ & _ & _ & _ & _ & _ & _ & Hcopy).
  exists df_train, df_test, X_train, top.
  split; [done|]. split; [done|]. split.
  - intros f Hf. unfold dashboard.top_cols.
    apply list_elem_of_filter. split; [apply str_contains_suffix|].
    apply assoc_is_Some.
    apply get_top_features_names in Htop. rewrite Forall_forall in Htop.
    pose proof (Htop f Hf) as Hin. apply validate_and_prepare_names in Hin.
    apply temporal_split_ok in Hsplit as (sorted & k & -> & ->).
    unfold pd.iloc_to in Hin. rewrite map_columns_names in Hin.
    assert (Hsome : is_Some (pd.assoc f (pd.columns (pd.iloc_from k sorted)))).
    { apply assoc_is_Some. unfold pd.iloc_from. by rewrite map_columns_names. }
    destruct Hsome as [s Hs]. exists s. by apply Hcopy.
  - intros c Hc Hin. unfold dashboard.top_cols in Hin.
    apply list_elem_of_filter in Hin as [Hsub _].
    unfold score_columns in Hc.
    repeat (apply elem_of_cons in Hc as [-> | Hc]; [discriminate Hsub|]).
    by apply elem_of_nil in Hc.
Qed.

End dashboard_properties.


Lemma dashboard_top_cols_copies_witness :
  ∃ out df_train df_test X_train top_features,
    run_anomaly_pipeline (L := sample_library) sample_frame "Time" = Ok out
    ∧ temporal_split (L := sample_library) sample_frame "Time"
      = Ok (df_train, df_test)
    ∧ get_top_features (L := sample_library) X_train
        (pd.columns (validate_and_prepare df_train)).*1 7 = Ok top_features
    ∧ (∀ f, f ∈ top_features → f +:+ "_copy" ∈ dashboard.top_cols out)
    ∧ "abnormality_score" ∉ dashboard.top_cols out.
Proof.
  assert (E : ∃ out,
            run_anomaly_pipeline (L := sample_library) sample_frame "Time"
            = Ok out).
  { vm_compute. eexists. reflexivity. }
  destruct E as [out E].
  destruct (dashboard_top_cols_copies (L := sample_library) _ _ _ E)
    as (df_train & df_test & X_train & top & Hsplit & Htop & Hcopies & Hscores).
  exists out, df_train, df_test, X_train, top.
  split; [exact E|]. split; [exact Hsplit|]. split; [exact Htop|].
  split; [exact Hcopies|].
  apply Hscores. unfold score_columns. left.
Defined.
